(** * The virtual storage array extension (nova.api.openstack.contrib)

    A shallow embedding of [virtual_storage_arrays.py]: the aggregate
    controller [VsaController], the generic child controller
    [VsaVolumeDriveController] and its two specialisations
    [VsaVolumeController] and [VsaDriveController].

    Python values are an inductive type, dictionaries are finite maps,
    exceptions are an error type, and every call to a collaborator
    (the vsa and volume services, the instance-type catalogue, the
    pagination helper) is performed through an abstract backend and
    recorded in a trace. The calls to [LOG.audit] and [LOG.error] only
    format a message from the local variables and are left out. What
    [int] reads beyond plain decimal literals is the interpreter's
    affair and a parameter. *)

From Stdlib Require Import ZArith String Ascii List Lia.
From stdpp Require Import base option list gmap strings.

Local Open Scope Z_scope.
Local Open Scope string_scope.

Set Warnings "-register-all".

(** ** Python values *)

(** The values a decoded request body or a database row can hold.
    Floating-point numbers are left out: no operation of the controllers
    looks inside a number other than the parent id. *)
Inductive pyval : Type :=
| PNone
| PBool (b : bool)
| PInt (n : Z)
| PStr (s : string)
| PList (l : list pyval)
| PDict (d : gmap string pyval).

(** A database row or a response body: a string-keyed mapping. *)
Abbreviation record := (gmap string pyval).

(** The exceptions that occur: nova's [exception.NotFound] and
    [exception.Invalid], the built-in errors of the operations used
    (each of them standing for its subclasses too), and any other
    exception a collaborator may raise. *)
Inductive exn : Type :=
| NotFound
| Invalid
| KeyError (key : string)
| TypeError
| AttributeError
| ValueError
| OtherError (name : string).

Inductive result (A : Type) : Type :=
| Ok (a : A)
| Raise (e : exn).
Arguments Ok {A} a.
Arguments Raise {A} e.

#[global] Instance result_ret : MRet result := fun A a => Ok a.
#[global] Instance result_bind : MBind result := fun A B f r =>
  match r with
  | Ok a => f a
  | Raise e => Raise e
  end.

(** *** Built-in operations *)

(** Truth value of an object, as tested by [if x] and [if not x]. *)
Definition truthy (v : pyval) : bool :=
  match v with
  | PNone => false
  | PBool b => b
  | PInt n => negb (Z.eqb n 0)
  | PStr s => negb (String.eqb s "")
  | PList l => match l with [] => false | _ => true end
  | PDict d => match map_to_list d with [] => false | _ => true end
  end.

(** [row[key]] on a row or a dictionary. *)
Definition getitem (d : record) (key : string) : result pyval :=
  match d !! key with
  | Some v => Ok v
  | None => Raise (KeyError key)
  end.

(** [v[key]] with a string key on an arbitrary object: only a dictionary
    can be indexed by a string. *)
Definition py_getitem (v : pyval) (key : string) : result pyval :=
  match v with
  | PDict d => getitem d key
  | _ => Raise TypeError
  end.

(** [v.get(key, dflt)]: a method of dictionaries only. *)
Definition py_get (v : pyval) (key : string) (dflt : pyval) : result pyval :=
  match v with
  | PDict d => Ok (default dflt (d !! key))
  | _ => Raise AttributeError
  end.

(** Substring test, the meaning of [k in s] when both are strings. *)
Fixpoint contains_str (k s : string) : bool :=
  String.prefix k s ||
  match s with
  | EmptyString => false
  | String _ rest => contains_str k rest
  end.

(** [key in v] for a string [key]: key membership for a dictionary,
    element membership for a list, substring test for a string; the
    other objects are not iterable. *)
Definition py_contains (v : pyval) (key : string) : result bool :=
  match v with
  | PDict d => Ok (bool_decide (is_Some (d !! key)))
  | PList l =>
      Ok (existsb (fun x => match x with
                            | PStr s => String.eqb s key
                            | _ => false
                            end) l)
  | PStr s => Ok (contains_str key s)
  | _ => Raise TypeError
  end.

(** *** Conversion to an integer: [int(v)] *)

Definition is_space (c : ascii) : bool :=
  let n := nat_of_ascii c in
  (Nat.leb 9 n && Nat.leb n 13) || Nat.eqb n 32.

Fixpoint lstrip (s : string) : string :=
  match s with
  | String c rest => if is_space c then lstrip rest else s
  | EmptyString => EmptyString
  end.

Fixpoint rstrip (s : string) : string :=
  match s with
  | EmptyString => EmptyString
  | String c rest =>
      match rstrip rest with
      | EmptyString => if is_space c then EmptyString else String c EmptyString
      | rest' => String c rest'
      end
  end.

Definition digit_of (c : ascii) : option Z :=
  let n := Z.of_nat (nat_of_ascii c) in
  if Z.leb 48 n && Z.leb n 57 then Some (n - 48) else None.

Fixpoint parse_digits (acc : Z) (s : string) : option Z :=
  match s with
  | EmptyString => Some acc
  | String c rest =>
      match digit_of c with
      | Some d => parse_digits (acc * 10 + d) rest
      | None => None
      end
  end.

Definition parse_unsigned (s : string) : option Z :=
  match s with
  | EmptyString => None
  | _ => parse_digits 0 s
  end.

(** A decimal literal with optional surrounding blanks and sign. *)
Definition parse_int (s : string) : option Z :=
  match rstrip (lstrip s) with
  | String "-" rest => Z.opp <$> parse_unsigned rest
  | String "+" rest => parse_unsigned rest
  | digits => parse_unsigned digits
  end.

(** What [int] makes of a text that is not such a plain literal: the
    decimal digits of other scripts, other white space, separators
    between digits. That depends on the interpreter, on its version and
    its Unicode tables, none of which this module fixes. *)
Class Interpreter : Type := {
  int_of_text : string -> option Z
}.

Definition py_int {Py : Interpreter} (v : pyval) : result Z :=
  match v with
  | PInt n => Ok n
  | PBool b => Ok (if b then 1 else 0)
  | PStr s => match parse_int s with
              | Some n => Ok n
              | None =>
                  match int_of_text s with
                  | Some n => Ok n
                  | None => Raise ValueError
                  end
              end
  | _ => Raise TypeError
  end.

(** The conversion of a text as CPython 3 does it. The text is held in
    UTF-8; every character that is white space is read as a blank and
    every decimal digit (general category Nd) as its value, then the
    blanks around are dropped and an optional sign and the digits are
    read, single underscores being allowed between digits. *)
Module CPython.

Definition code (c : ascii) : Z := Z.of_nat (nat_of_ascii c).

Definition continuation (c : ascii) : option Z :=
  let b := code c in
  if Z.leb 128 b && Z.ltb b 192 then Some (b - 128) else None.

(** The code points of a text in UTF-8. *)
Fixpoint decode (s : string) : option (list Z) :=
  match s with
  | EmptyString => Some []
  | String c0 r0 =>
      let b0 := code c0 in
      if Z.ltb b0 128 then cons b0 <$> decode r0
      else if Z.leb 192 b0 && Z.ltb b0 224 then
        match r0 with
        | String c1 r1 =>
            x1 ← continuation c1;
            cons ((b0 - 192) * 64 + x1) <$> decode r1
        | _ => None
        end
      else if Z.leb 224 b0 && Z.ltb b0 240 then
        match r0 with
        | String c1 (String c2 r2) =>
            x1 ← continuation c1; x2 ← continuation c2;
            cons (((b0 - 224) * 64 + x1) * 64 + x2) <$> decode r2
        | _ => None
        end
      else if Z.leb 240 b0 && Z.ltb b0 248 then
        match r0 with
        | String c1 (String c2 (String c3 r3)) =>
            x1 ← continuation c1; x2 ← continuation c2; x3 ← continuation c3;
            cons ((((b0 - 240) * 64 + x1) * 64 + x2) * 64 + x3) <$> decode r3
        | _ => None
        end
      else None
  end.

(** The first code point, the zero, of each run of ten decimal
    digits. *)
Definition zeros : list Z :=
  [0x30; 0x660; 0x6f0; 0x7c0; 0x966; 0x9e6; 0xa66; 0xae6; 0xb66; 0xbe6;
   0xc66; 0xce6; 0xd66; 0xde6; 0xe50; 0xed0; 0xf20; 0x1040; 0x1090; 0x17e0;
   0x1810; 0x1946; 0x19d0; 0x1a80; 0x1a90; 0x1b50; 0x1bb0; 0x1c40; 0x1c50;
   0xa620; 0xa8d0; 0xa900; 0xa9d0; 0xa9f0; 0xaa50; 0xabf0; 0xff10; 0x104a0;
   0x10d30; 0x11066; 0x110f0; 0x11136; 0x111d0; 0x112f0; 0x11450; 0x114d0;
   0x11650; 0x116c0; 0x11730; 0x118e0; 0x11950; 0x11c50; 0x11d50; 0x11da0;
   0x16a60; 0x16ac0; 0x16b50; 0x1d7ce; 0x1d7d8; 0x1d7e2; 0x1d7ec; 0x1d7f6;
   0x1e140; 0x1e2f0; 0x1e950; 0x1fbf0].

Definition decimal (c : Z) : option Z :=
  (fun zero => c - zero)
    <$> List.find (fun zero => Z.leb zero c && Z.ltb c (zero + 10)) zeros.

(** The white space beyond the ASCII characters. *)
Definition spaces : list Z :=
  [0x85; 0xa0; 0x1680; 0x2000; 0x2001; 0x2002; 0x2003; 0x2004; 0x2005;
   0x2006; 0x2007; 0x2008; 0x2009; 0x200a; 0x2028; 0x2029; 0x202f; 0x205f;
   0x3000].

(** A character as the parser of literals sees it. *)
Definition transliterate (c : Z) : option Z :=
  if Z.ltb c 128 then Some c
  else if existsb (Z.eqb c) spaces then Some 32
  else (fun d => 48 + d) <$> decimal c.

Definition blank (c : Z) : bool :=
  (Z.leb 9 c && Z.leb c 13) || Z.eqb c 32.

Fixpoint drop_blanks (l : list Z) : list Z :=
  match l with
  | c :: rest => if blank c then drop_blanks rest else l
  | [] => []
  end.

(** The digits, with single underscores between them; [pending] tells
    that a digit has to follow. *)
Fixpoint digits (acc : Z) (pending : bool) (l : list Z) : option Z :=
  match l with
  | [] => if pending then None else Some acc
  | c :: rest =>
      if Z.leb 48 c && Z.leb c 57 then digits (acc * 10 + (c - 48)) false rest
      else if Z.eqb c 95 && negb pending then digits acc true rest
      else None
  end.

Definition literal (l : list Z) : option Z :=
  match rev (drop_blanks (rev (drop_blanks l))) with
  | 45 :: rest => Z.opp <$> digits 0 true rest
  | 43 :: rest => digits 0 true rest
  | rest => digits 0 true rest
  end.

Definition read (s : string) : option Z :=
  codes ← decode s;
  characters ← mapM transliterate codes;
  literal characters.

Definition interpreter : Interpreter := {| int_of_text := read |}.
End CPython.

(** [v != n] for an integer [n]: only a number can be equal to it. *)
Definition py_ne_int (v : pyval) (n : Z) : bool :=
  match v with
  | PInt m => negb (Z.eqb m n)
  | PBool b => negb (Z.eqb (if b then 1 else 0) n)
  | _ => true
  end.

(** [s.split(sep)[0]]: the part of [s] before the first separator. *)
Fixpoint split_head (sep : ascii) (s : string) : string :=
  match s with
  | EmptyString => EmptyString
  | String c rest =>
      if Ascii.eqb c sep then EmptyString else String c (split_head sep rest)
  end.


(** ** Requests, responses and collaborators *)

(** What a controller reads from the request: the context stored by the
    authentication middleware under [req.environ['nova.context']], and
    the query parameters that the pagination helper consults. *)
Record request : Type := Request {
  nova_context : pyval;
  GET : record
}.

Inductive webob_exc : Type :=
| HTTPNotFound
| HTTPBadRequest
| HTTPUnprocessableEntity
| HTTPAccepted.

(** What a controller method returns: [faults.Fault(e)], a bare webob
    response such as [exc.HTTPAccepted()], or a dictionary to serialize. *)
Inductive response : Type :=
| Fault (e : webob_exc)
| Bare (e : webob_exc)
| Body (d : record).

(** The calls that leave this module. *)
Inductive call : Type :=
| vsa_api_get_all (context : pyval)
| vsa_api_get (context vsa_id : pyval)
| vsa_api_create (context display_name display_description storage shared : pyval)
                 (instance_type : record) (availability_zone : pyval)
| vsa_api_delete (context vsa_id : pyval)
| volume_api_get (context volume_id : pyval)
| volume_api_get_all_by_vsa (context vsa_id : pyval) (direction : string)
| volume_api_create (context size snapshot name description from_vsa_id : pyval)
| volume_api_update (context volume_id : pyval) (fields : record)
| volume_api_delete (context volume_id : pyval)
| get_instance_type_by_name (name : pyval)
| common_limited (items : list record) (req : request).

(** The type of what each call returns when it does not raise. *)
Definition reply (c : call) : Type :=
  match c with
  | vsa_api_get_all _ | volume_api_get_all_by_vsa _ _ _ | common_limited _ _ =>
      list record
  | vsa_api_delete _ _ | volume_api_update _ _ _ | volume_api_delete _ _ =>
      unit
  | _ => record
  end.

(** The services behind the controllers, with their state. *)
Class Backend : Type := {
  store : Type;
  perform : forall c : call, store -> result (reply c) * store
}.

(** The process-wide configuration ([FLAGS]). *)
Class Flags : Type := {
  default_vsa_instance_type : string
}.

(** ** Computations: state, exceptions and the trace of calls *)

Section Effects.
Context {B : Backend}.

Record outcome (A : Type) : Type := Outcome {
  res : result A;
  final : store;
  trace : list call
}.
Arguments Outcome {A} res final trace.
Arguments res {A} o.
Arguments final {A} o.
Arguments trace {A} o.

Definition Eff (A : Type) : Type := store -> outcome A.

Definition eff_ret {A} (a : A) : Eff A := fun s => Outcome (Ok a) s [].

Definition eff_bind {A B} (f : A -> Eff B) (m : Eff A) : Eff B := fun s =>
  let o := m s in
  match res o with
  | Ok a =>
      let o' := f a (final o) in
      Outcome (res o') (final o') (trace o ++ trace o')
  | Raise e => Outcome (Raise e) (final o) (trace o)
  end.

(** A pure step that may raise. *)
Definition lift {A} (r : result A) : Eff A := fun s => Outcome r s [].

(** A call to a collaborator. *)
Definition invoke (c : call) : Eff (reply c) := fun s =>
  let (r, s') := perform c s in Outcome r s' [c].

(** The body of a [try] statement, with the exception it ends in
    handed to the [except] clauses that follow. *)
Definition attempt {A} (m : Eff A) : Eff (result A) := fun s =>
  let o := m s in Outcome (Ok (res o)) (final o) (trace o).

Fixpoint for_each {A B} (f : A -> Eff B) (l : list A) : Eff (list B) :=
  match l with
  | [] => eff_ret []
  | x :: rest =>
      eff_bind (fun y => eff_bind (fun ys => eff_ret (y :: ys)) (for_each f rest))
               (f x)
  end.
End Effects.

Arguments Outcome {_ A} res final trace.
Arguments res {_ A} o.
Arguments final {_ A} o.
Arguments trace {_ A} o.

#[global] Instance Eff_ret {B : Backend} : MRet Eff := @eff_ret B.
#[global] Instance Eff_bind {B : Backend} : MBind Eff := @eff_bind B.

(** The functions and the base class that this module takes from
    [nova.api.openstack.contrib.volumes]. *)
Class Volumes {B : Backend} : Type := {
  translate_volume_detail_view : pyval -> record -> result record;
  translate_volume_summary_view : pyval -> record -> result record;
  VolumeController_show : request -> pyval -> Eff response;
  VolumeController_delete : request -> pyval -> Eff response
}.

(** ** The aggregate controller *)

Module VsaController.
Section Methods.
Context {B : Backend} {F : Flags}.

(** Map keys for vsa summary/detailed view. *)
Definition _vsa_view (context : pyval) (vsa : record) (details : bool)
  : result record :=
  let d : record := ∅ in
  v ← getitem vsa "id"; let d := <["id" := v]> d in
  v ← getitem vsa "name"; let d := <["name" := v]> d in
  v ← getitem vsa "display_name"; let d := <["displayName" := v]> d in
  v ← getitem vsa "display_description";
  let d := <["displayDescription" := v]> d in
  v ← getitem vsa "created_at"; let d := <["createTime" := v]> d in
  v ← getitem vsa "status"; let d := <["status" := v]> d in
  t ← getitem vsa "vsa_instance_type";
  v ← (if truthy t then py_get t "name" PNone else Ok PNone);
  let d := <["vcType" := v]> d in
  v ← getitem vsa "vc_count"; let d := <["vcCount" := v]> d in
  v ← getitem vsa "vol_count"; let d := <["driveCount" := v]> d in
  mret d.

(** Return summary or detailed list of VSAs. *)
Definition _items (req : request) (details : bool) : Eff response :=
  let context := nova_context req in
  vsas ← invoke (vsa_api_get_all context);
  limited_list ← invoke (common_limited vsas req);
  views ← for_each (fun vsa => lift (_vsa_view context vsa details)) limited_list;
  mret (Body {[ "vsaSet" := PList (PDict <$> views) ]}).

Definition index (req : request) : Eff response := _items req false.

Definition detail (req : request) : Eff response := _items req true.

(** Return data about the given VSA. *)
Definition show (req : request) (id : pyval) : Eff response :=
  let context := nova_context req in
  r ← attempt (invoke (vsa_api_get context id));
  match r with
  | Raise NotFound => mret (Fault HTTPNotFound)
  | Raise e => lift (Raise e)
  | Ok vsa =>
      view ← lift (_vsa_view context vsa true);
      mret (Body {[ "vsa" := PDict view ]})
  end.

(** Create a new VSA. *)
Definition create (req : request) (body : pyval) : Eff response :=
  let context := nova_context req in
  if negb (truthy body) then mret (Fault HTTPUnprocessableEntity) else
  vsa ← lift (py_getitem body "vsa");
  display_name ← lift (py_get vsa "displayName" PNone);
  display_description ← lift (py_get vsa "displayDescription" PNone);
  storage ← lift (py_get vsa "storage" PNone);
  shared ← lift (py_get vsa "shared" PNone);
  vc_type ← lift (py_get vsa "vcType" (PStr default_vsa_instance_type));
  placement ← lift (py_get vsa "placement" (PDict ∅));
  availability_zone ← lift (py_get placement "AvailabilityZone" PNone);
  r ← attempt (invoke (get_instance_type_by_name vc_type));
  match r with
  | Raise NotFound => mret (Fault HTTPNotFound)
  | Raise e => lift (Raise e)
  | Ok instance_type =>
      result ← invoke (vsa_api_create context display_name display_description
                         storage shared instance_type availability_zone);
      view ← lift (_vsa_view context result true);
      mret (Body {[ "vsa" := PDict view ]})
  end.

(** Delete a VSA. *)
Definition delete (req : request) (id : pyval) : Eff response :=
  let context := nova_context req in
  r ← attempt (invoke (vsa_api_delete context id));
  match r with
  | Raise NotFound => mret (Fault HTTPNotFound)
  | Raise e => lift (Raise e)
  | Ok _ => mret (Bare HTTPAccepted)
  end.
End Methods.
End VsaController.

(** ** The child controllers *)

(** The base class for VSA volumes and drives. *)
Module VsaVolumeDriveController.

(** The attributes that the constructors of the two subclasses set. *)
Record self : Type := Self {
  direction : string;
  objects : string;
  object : string
}.

Definition updatable_fields : list string :=
  ["display_name"; "display_description"; "status";
   "provider_location"; "provider_auth"].

(** The loop of [update] that gathers the fields to change. *)
Fixpoint collect_changes (vol : pyval) (fields : list string) (changes : record)
  : result record :=
  match fields with
  | [] => Ok changes
  | field :: rest =>
      present ← py_contains vol field;
      if (present : bool) then
        v ← py_getitem vol field;
        collect_changes vol rest (<[field := v]> changes)
      else collect_changes vol rest changes
  end.

Section Methods.
Context {B : Backend} {V : Volumes} {Py : Interpreter}.
Variable this : self.

Definition _translation (context : pyval) (vol : record) (vsa_id : pyval)
    (details : bool) : result record :=
  let translation :=
    if details then translate_volume_detail_view
    else translate_volume_summary_view in
  d ← translation context vol;
  owner ← getitem vol (direction this);
  mret (<["vsaId" := owner]> d).

Definition _check_volume_ownership (context vsa_id id : pyval) : Eff unit :=
  volume_ref ← invoke (volume_api_get context id);
  own_vsa_id ← lift (getitem volume_ref (direction this));
  claimed ← lift (py_int vsa_id);
  if py_ne_int own_vsa_id claimed then lift (Raise Invalid) else mret tt.

(** Return summary or detailed list of volumes for particular VSA. *)
Definition _items (req : request) (vsa_id : pyval) (details : bool)
  : Eff response :=
  let context := nova_context req in
  vols ← invoke (volume_api_get_all_by_vsa context vsa_id
                   (split_head "_" (direction this)));
  limited_list ← invoke (common_limited vols req);
  views ← for_each (fun vol => lift (_translation context vol vsa_id details))
                   limited_list;
  mret (Body {[ objects this := PList (PDict <$> views) ]}).

Definition index (req : request) (vsa_id : pyval) : Eff response :=
  _items req vsa_id false.

Definition detail (req : request) (vsa_id : pyval) : Eff response :=
  _items req vsa_id true.

(** Create a new volume from VSA. *)
Definition create (req : request) (vsa_id body : pyval) : Eff response :=
  let context := nova_context req in
  if negb (truthy body) then mret (Fault HTTPUnprocessableEntity) else
  vol ← lift (py_getitem body (object this));
  size ← lift (py_getitem vol "size");
  display_name ← lift (py_get vol "displayName" PNone);
  display_description ← lift (py_get vol "displayDescription" PNone);
  new_volume ← invoke (volume_api_create context size PNone display_name
                         display_description vsa_id);
  view ← lift (_translation context new_volume vsa_id true);
  mret (Body {[ object this := PDict view ]}).

(** Update a volume. *)
Definition update (req : request) (vsa_id id body : pyval) : Eff response :=
  let context := nova_context req in
  r ← attempt (_check_volume_ownership context vsa_id id);
  match r with
  | Raise NotFound => mret (Fault HTTPNotFound)
  | Raise Invalid => mret (Fault HTTPBadRequest)
  | Raise e => lift (Raise e)
  | Ok _ =>
      vol ← lift (py_getitem body (object this));
      changes ← lift (collect_changes vol updatable_fields ∅);
      r ← attempt (invoke (volume_api_update context id changes));
      match r with
      | Raise NotFound => mret (Fault HTTPNotFound)
      | Raise e => lift (Raise e)
      | Ok _ => mret (Bare HTTPAccepted)
      end
  end.

(** Delete a volume. *)
Definition delete (req : request) (vsa_id id : pyval) : Eff response :=
  let context := nova_context req in
  r ← attempt (_check_volume_ownership context vsa_id id);
  match r with
  | Raise NotFound => mret (Fault HTTPNotFound)
  | Raise Invalid => mret (Fault HTTPBadRequest)
  | Raise e => lift (Raise e)
  | Ok _ => VolumeController_delete req id
  end.

(** Return data about the given volume. *)
Definition show (req : request) (vsa_id id : pyval) : Eff response :=
  let context := nova_context req in
  r ← attempt (_check_volume_ownership context vsa_id id);
  match r with
  | Raise NotFound => mret (Fault HTTPNotFound)
  | Raise Invalid => mret (Fault HTTPBadRequest)
  | Raise e => lift (Raise e)
  | Ok _ => VolumeController_show req id
  end.
End Methods.
End VsaVolumeDriveController.

(** The VSA volume API controller: volumes created by a particular VSA. *)
Module VsaVolumeController.
Import VsaVolumeDriveController.

Definition __init__ : self :=
  {| direction := "from_vsa_id"; objects := "volumes"; object := "volume" |}.

Section Methods.
Context {B : Backend} {V : Volumes} {Py : Interpreter}.

Definition index := index __init__.
Definition detail := detail __init__.
Definition show := show __init__.
Definition create := create __init__.
Definition update := update __init__.
Definition delete := delete __init__.
End Methods.
End VsaVolumeController.

(** The VSA drive API controller: drives created for a particular VSA. *)
Module VsaDriveController.
Import VsaVolumeDriveController.

Definition __init__ : self :=
  {| direction := "to_vsa_id"; objects := "drives"; object := "drive" |}.

Section Methods.
Context {B : Backend} {V : Volumes} {Py : Interpreter}.

Definition index := index __init__.
Definition detail := detail __init__.
Definition show := show __init__.
Definition delete := delete __init__.

(** Create a new drive for VSA. Should be done through VSA APIs. *)
Definition create (req : request) (vsa_id body : pyval) : Eff response :=
  mret (Fault HTTPBadRequest).

(** Update a drive. Should be done through VSA APIs. *)
Definition update (req : request) (vsa_id id body : pyval) : Eff response :=
  mret (Fault HTTPBadRequest).
End Methods.
End VsaDriveController.

(** ** A reference backend *)

(** An executable instance of the collaborators, on which the controllers
    can be run. *)
Module InMemory.

Record db : Type := Db {
  vsas : gmap Z record;
  volumes : gmap Z record;
  instance_types : gmap string record;
  next_id : Z
}.

Definition row_id (v : pyval) : option Z :=
  match py_int (Py := CPython.interpreter) v with
  | Ok n => Some n
  | Raise _ => None
  end.

Definition fetch (table : gmap Z record) (id : pyval) : result record :=
  match row_id id ≫= (table !!.) with
  | Some row => Ok row
  | None => Raise NotFound
  end.

Definition link_is (owner : option Z) (field : string) (row : record) : bool :=
  match owner, row !! field with
  | Some n, Some v => negb (py_ne_int v n)
  | _, _ => false
  end.

Definition new_vsa (id : Z) (display_name display_description : pyval)
    (instance_type : record) : record :=
  <["id" := PInt id]> (<["name" := PStr "vsa"]>
  (<["display_name" := display_name]>
  (<["display_description" := display_description]>
  (<["created_at" := PNone]> (<["status" := PStr "creating"]>
  (<["vsa_instance_type" := PDict instance_type]>
  (<["vc_count" := PInt 0]> (<["vol_count" := PInt 0]> ∅)))))))).

Definition new_volume (id : Z) (size name description from_vsa_id : pyval)
  : record :=
  <["id" := PInt id]> (<["size" := size]> (<["status" := PStr "creating"]>
  (<["display_name" := name]> (<["display_description" := description]>
  (<["availability_zone" := PNone]> (<["created_at" := PNone]>
  (<["from_vsa_id" := match row_id from_vsa_id with
                      | Some n => PInt n
                      | None => from_vsa_id
                      end]>
  (<["to_vsa_id" := PNone]> ∅)))))))).

(** Modelled from the spec: the aggregate and volume persistence
    service (create, delete, fetch-by-id, fetch-all-by-parent,
    update-fields), the type lookup and the result limiter, none of
    which is part of this module. A missing id or an unknown type name
    is signalled with [NotFound]; creation attaches the given type
    descriptor, respectively the given parent id as the from-link. *)
Definition perform_db (c : call) (s : db) : result (reply c) * db :=
  match c return result (reply c) * db with
  | vsa_api_get_all _ => (Ok (map_to_list (vsas s)).*2, s)
  | vsa_api_get _ id => (fetch (vsas s) id, s)
  | vsa_api_create _ name description _ _ instance_type _ =>
      let row := new_vsa (next_id s) name description instance_type in
      (Ok row, Db (<[next_id s := row]> (vsas s)) (volumes s)
                  (instance_types s) (next_id s + 1))
  | vsa_api_delete _ id =>
      match fetch (vsas s) id, row_id id with
      | Ok _, Some n =>
          (Ok tt, Db (delete n (vsas s)) (volumes s) (instance_types s)
                     (next_id s))
      | _, _ => (Raise NotFound, s)
      end
  | volume_api_get _ id => (fetch (volumes s) id, s)
  | volume_api_get_all_by_vsa _ vsa_id dir =>
      (Ok (filter (fun row => link_is (row_id vsa_id) (dir ++ "_vsa_id") row = true)
                  (map_to_list (volumes s)).*2), s)
  | volume_api_create _ size _ name description from_vsa_id =>
      let row := new_volume (next_id s) size name description from_vsa_id in
      (Ok row, Db (vsas s) (<[next_id s := row]> (volumes s))
                  (instance_types s) (next_id s + 1))
  | volume_api_update _ id fields =>
      match fetch (volumes s) id, row_id id with
      | Ok row, Some n =>
          (Ok tt, Db (vsas s) (<[n := fields ∪ row]> (volumes s))
                     (instance_types s) (next_id s))
      | _, _ => (Raise NotFound, s)
      end
  | volume_api_delete _ id =>
      match fetch (volumes s) id, row_id id with
      | Ok _, Some n =>
          (Ok tt, Db (vsas s) (delete n (volumes s)) (instance_types s)
                     (next_id s))
      | _, _ => (Raise NotFound, s)
      end
  | get_instance_type_by_name name =>
      match name with
      | PStr n =>
          match instance_types s !! n with
          | Some t => (Ok t, s)
          | None => (Raise NotFound, s)
          end
      | _ => (Raise NotFound, s)
      end
  | common_limited items _ => (Ok items, s)
  end.

Definition backend : Backend := {| store := db; perform := perform_db |}.

(** Modelled from the spec: the summary and detailed views of a child
    resource, defined in [nova.api.openstack.contrib.volumes]: id,
    status, size, availabilityZone, createdAt, displayName and
    displayDescription. *)
Definition translate_view (context : pyval) (vol : record) : result record :=
  let d : record := ∅ in
  v ← getitem vol "id"; let d := <["id" := v]> d in
  v ← getitem vol "status"; let d := <["status" := v]> d in
  v ← getitem vol "size"; let d := <["size" := v]> d in
  v ← getitem vol "availability_zone"; let d := <["availabilityZone" := v]> d in
  v ← getitem vol "created_at"; let d := <["createdAt" := v]> d in
  v ← getitem vol "display_name"; let d := <["displayName" := v]> d in
  v ← getitem vol "display_description";
  let d := <["displayDescription" := v]> d in
  mret d.

(** Modelled from the spec: [show] of the base class
    [volumes.VolumeController], which fetches the record and projects
    it in detailed form; not-found is a client error. *)
Definition base_show (req : request) (id : pyval) : @Eff backend response :=
  r ← attempt (invoke (volume_api_get (nova_context req) id));
  match r with
  | Raise NotFound => mret (Fault HTTPNotFound)
  | Raise e => lift (Raise e)
  | Ok vol =>
      view ← lift (translate_view (nova_context req) vol);
      mret (Body {[ "volume" := PDict view ]})
  end.

(** Modelled from the spec: [delete] of the base class
    [volumes.VolumeController], which delegates to persistence delete;
    success is an accepted response, not-found a client error. *)
Definition base_delete (req : request) (id : pyval) : @Eff backend response :=
  r ← attempt (invoke (volume_api_delete (nova_context req) id));
  match r with
  | Raise NotFound => mret (Fault HTTPNotFound)
  | Raise e => lift (Raise e)
  | Ok _ => mret (Bare HTTPAccepted)
  end.

Definition volumes_module : @Volumes backend := {|
  translate_volume_detail_view := translate_view;
  translate_volume_summary_view := translate_view;
  VolumeController_show := base_show;
  VolumeController_delete := base_delete
|}.

Definition flags : Flags := {| default_vsa_instance_type := "m1.small" |}.

Definition m1_small : record :=
  <["name" := PStr "m1.small"]> (<["id" := PInt 2]> ∅).

Definition request0 : request := Request (PStr "admin") ∅.

(** A store with one aggregate (id 5), another one (id 7) and a volume
    (id 9) created by the latter. *)
Definition sample : db :=
  Db (<[5 := new_vsa 5 (PStr "arr1") PNone m1_small]>
      (<[7 := new_vsa 7 (PStr "arr2") PNone m1_small]> ∅))
     (<[9 := new_volume 9 (PInt 3) (PStr "vol") PNone (PStr "7")]> ∅)
     (<["m1.small" := m1_small]> ∅)
     10.
End InMemory.

(** A backend in which every call raises the exception [e], as when
    the services cannot be reached or know none of the ids. *)
Module Unavailable.

Definition backend (e : exn) : Backend :=
  {| store := unit; perform := fun _ s => (Raise e, s) |}.

Definition volumes_module (e : exn) : @Volumes (backend e) := {|
  translate_volume_detail_view := InMemory.translate_view;
  translate_volume_summary_view := InMemory.translate_view;
  VolumeController_show := fun _ _ => lift (Raise e);
  VolumeController_delete := fun _ _ => lift (Raise e)
|}.
End Unavailable.

(** ** Observations used in the statements *)

(** The call, if it is an update of a volume, leaves [key] unchanged. *)
Definition leaves_unchanged (key : string) (c : call) : Prop :=
  match c with
  | volume_api_update _ _ fields => fields !! key = None
  | _ => True
  end.

(** How the child [update] answers once the ownership check has passed
    and the changes are gathered: by what the volume service says. *)
Definition update_answer (r : result unit) : result response :=
  match r with
  | Ok _ => Ok (Bare HTTPAccepted)
  | Raise NotFound => Ok (Fault HTTPNotFound)
  | Raise e => Raise e
  end.

(** The columns of an aggregate row that the view reads. *)
Definition vsa_columns : list string :=
  ["id"; "name"; "display_name"; "display_description"; "created_at";
   "status"; "vsa_instance_type"; "vc_count"; "vol_count"].

Definition has_columns (columns : list string) (row : record) : bool :=
  forallb (fun c => bool_decide (is_Some (row !! c))) columns.

(** A well-formed aggregate row: every column is there (possibly
    holding [None]) and the type reference is a row or unset. *)
Definition well_formed_vsa (vsa : record) : bool :=
  has_columns vsa_columns vsa &&
  match vsa !! "vsa_instance_type" with
  | Some (PDict _) => true
  | Some t => negb (truthy t)
  | None => false
  end.

(** The names that stay inside: the two direction links, the row
    metadata and the provider credentials. *)
Definition internal_only : list string :=
  ["from_vsa_id"; "to_vsa_id"; "created_at"; "updated_at"; "deleted_at";
   "deleted"; "provider_location"; "provider_auth"].

(** The keys of the aggregate view. *)
Definition vsa_view_keys : list string :=
  ["id"; "name"; "displayName"; "displayDescription"; "createTime";
   "status"; "vcType"; "vcCount"; "driveCount"].

(** The call is a creation of an aggregate. *)
Definition is_vsa_create (c : call) : bool :=
  match c with
  | vsa_api_create _ _ _ _ _ _ _ => true
  | _ => false
  end.

(** The ownership check passes in the state [s]: the child is found,
    the parent id converts to an integer and the child's link in the
    controller's direction is equal to it. *)
Definition ownership_holds {B : Backend} {Py : Interpreter}
    (this : VsaVolumeDriveController.self)
    (context vsa_id id : pyval) (s : store) : Prop :=
  ∃ (R : record) (owner : pyval) (b : Z),
    (perform (volume_api_get context id) s).1 = Ok R ∧
    R !! VsaVolumeDriveController.direction this = Some owner ∧
    py_int vsa_id = Ok b ∧
    py_ne_int owner b = false.

(** The method ended without doing what was asked: with one of the two
    faults or with an exception. *)
Definition refused (r : result response) : Prop :=
  r = Ok (Fault HTTPNotFound) ∨ r = Ok (Fault HTTPBadRequest) ∨
  ∃ e, r = Raise e.

(** The external names of the aggregate view that hold a column as it
    is, each with its column. *)
Definition vsa_renaming : list (string * string) :=
  [("id", "id"); ("name", "name"); ("displayName", "display_name");
   ("displayDescription", "display_description");
   ("createTime", "created_at"); ("status", "status");
   ("vcCount", "vc_count"); ("driveCount", "vol_count")].

(** The same for the view of a child resource, which has the owning
    link under [vsaId] besides. *)
Definition volume_renaming : list (string * string) :=
  [("id", "id"); ("status", "status"); ("size", "size");
   ("availabilityZone", "availability_zone"); ("createdAt", "created_at");
   ("displayName", "display_name");
   ("displayDescription", "display_description")].

Definition volume_view_keys : list string :=
  ["id"; "status"; "size"; "availabilityZone"; "createdAt"; "displayName";
   "displayDescription"; "vsaId"].

(** * Properties *)

Import VsaVolumeDriveController.

Ltac eff_unfold :=
  unfold mbind, mret, Eff_bind, Eff_ret, eff_bind, eff_ret, attempt, invoke, lift;
  simpl.

(** ** The built-in operations on examples *)

Example int_of_path_segment (Py : Interpreter) : py_int (PStr "5") = Ok 5.
Proof. reflexivity. Qed.
Example int_of_padded (Py : Interpreter) : py_int (PStr " -12 ") = Ok (-12).
Proof. reflexivity. Qed.
Example int_of_word :
  py_int (Py := CPython.interpreter) (PStr "abc") = Raise ValueError.
Proof. reflexivity. Qed.
Example int_of_arabic_indic_seven :
  py_int (Py := CPython.interpreter) (PStr "٧") = Ok 7.
Proof. reflexivity. Qed.
Example int_of_fullwidth_after_no_break_space :
  py_int (Py := CPython.interpreter) (PStr " ５") = Ok 5.
Proof. reflexivity. Qed.
Example int_of_separated :
  py_int (Py := CPython.interpreter) (PStr "1_0") = Ok 10.
Proof. reflexivity. Qed.
Example split_from : split_head "_" "from_vsa_id" = "from".
Proof. reflexivity. Qed.
Example in_str : py_contains (PStr "xstatusx") "status" = Ok true.
Proof. reflexivity. Qed.
Example in_list : py_contains (PList [PStr "status"]) "status" = Ok true.
Proof. reflexivity. Qed.
Example in_none : py_contains PNone "status" = Raise TypeError.
Proof. reflexivity. Qed.
Example empty_dict_is_false : truthy (PDict ∅) = false.
Proof. reflexivity. Qed.
Example drive_listing_direction :
  split_head "_" (direction VsaDriveController.__init__) = "to".
Proof. reflexivity. Qed.

(** ** Running computations *)

Section Running.
Context {B : Backend}.

Lemma bind_lift_ok {A C} (a : A) (k : A -> Eff C) (s : store) :
  (lift (Ok a) ≫= k) s = k a s.
Proof.
  unfold mbind, Eff_bind, eff_bind, lift. simpl.
  destruct (k a s); reflexivity.
Qed.

Lemma bind_attempt_invoke {C} (c : call) (k : result (reply c) -> Eff C)
    (s : store) :
  (attempt (invoke c) ≫= k) s
  = let o := k (perform c s).1 (perform c s).2 in
    Outcome (res o) (final o) (c :: trace o).
Proof.
  unfold mbind, Eff_bind, eff_bind, attempt, invoke.
  destruct (perform c s); reflexivity.
Qed.

Lemma bind_invoke {C} (c : call) (k : reply c -> Eff C) (s : store) :
  (invoke c ≫= k) s
  = match (perform c s).1 with
    | Ok a =>
        let o := k a (perform c s).2 in
        Outcome (res o) (final o) (c :: trace o)
    | Raise e => Outcome (Raise e) (perform c s).2 [c]
    end.
Proof.
  unfold mbind, Eff_bind, eff_bind, invoke.
  destruct (perform c s) as [[a|e] s']; reflexivity.
Qed.
End Running.

(** ** The ownership validator *)

Section OwnershipValidator.
Context {B : Backend} {Py : Interpreter}.
Variable this : self.
Variables (context vsa_id id : pyval) (s s1 : store).

Lemma check_not_found :
  perform (volume_api_get context id) s = (Raise NotFound, s1) ->
  _check_volume_ownership this context vsa_id id s
  = Outcome (Raise NotFound) s1 [volume_api_get context id].
Proof.
  intros Hget. unfold _check_volume_ownership. eff_unfold.
  rewrite Hget. reflexivity.
Qed.

Lemma check_decides (R : record) (owner : pyval) (claimed : Z) :
  perform (volume_api_get context id) s = (Ok R, s1) ->
  R !! direction this = Some owner ->
  py_int vsa_id = Ok claimed ->
  _check_volume_ownership this context vsa_id id s
  = Outcome (if py_ne_int owner claimed then Raise Invalid else Ok tt) s1
            [volume_api_get context id].
Proof.
  intros Hget Hown Hint. unfold _check_volume_ownership. eff_unfold.
  rewrite Hget. simpl. unfold getitem. rewrite Hown. simpl.
  rewrite Hint. simpl.
  destruct (py_ne_int owner claimed); reflexivity.
Qed.
End OwnershipValidator.

Lemma py_ne_int_other (a b : Z) : b ≠ a -> py_ne_int (PInt a) b = true.
Proof.
  intros Hne. simpl. destruct (Z.eqb_spec a b); [congruence | reflexivity].
Qed.

Lemma py_ne_int_same (a : Z) : py_ne_int (PInt a) a = false.
Proof. simpl. rewrite Z.eqb_refl. reflexivity. Qed.

Section ChildOperations.
Context {B : Backend} {V : Volumes} {Py : Interpreter}.

(** C1. A child record whose owning link (the field the controller's
    direction selects) is the aggregate [A], addressed under a parent
    id whose integer value [b] differs from [A]: show, update and
    delete answer with the bad-request fault, after the single lookup
    of the record; they neither report not-found nor succeed. The drive
    controller's own update answers with the same fault. *)
Theorem ownership_mismatch_is_bad_request
    (this : self) (req : request) (vsa_id id body : pyval)
    (s s1 : store) (R : record) (A b : Z) :
  perform (volume_api_get (nova_context req) id) s = (Ok R, s1) ->
  R !! direction this = Some (PInt A) ->
  py_int vsa_id = Ok b ->
  b ≠ A ->
  let rejected :=
    Outcome (Ok (Fault HTTPBadRequest)) s1
            [volume_api_get (nova_context req) id] in
  show this req vsa_id id s = rejected ∧
  update this req vsa_id id body s = rejected ∧
  delete this req vsa_id id s = rejected ∧
  res (VsaDriveController.update req vsa_id id body s)
  = Ok (Fault HTTPBadRequest).
Proof.
  intros Hget Hown Hint Hne rejected.
  pose proof (check_decides this _ vsa_id _ _ _ R _ _ Hget Hown Hint) as Hchk.
  rewrite (py_ne_int_other _ _ Hne) in Hchk.
  unfold show, update, delete. eff_unfold. rewrite Hchk. simpl.
  repeat split.
Qed.

(** C2. Create and update on the drive controller answer with the
    bad-request fault whatever the parent id, the child id and the
    body are; the store is left as it was and no collaborator is
    called. *)
Theorem drive_create_update_forbidden
    (req : request) (vsa_id id body : pyval) (s : store) :
  VsaDriveController.create req vsa_id body s
  = Outcome (Ok (Fault HTTPBadRequest)) s [] ∧
  VsaDriveController.update req vsa_id id body s
  = Outcome (Ok (Fault HTTPBadRequest)) s [].
Proof. split; reflexivity. Qed.

(** C8. Deleting an id for which the service reports no record gives
    the not-found fault as a returned response, not an exception, on
    the aggregate controller and on the child controller (whatever
    its direction and the parent id). *)
Theorem delete_missing_is_not_found
    (this : self) (req : request) (vsa_id id : pyval) (s s1 : store) :
  (perform (vsa_api_delete (nova_context req) id) s = (Raise NotFound, s1) ->
   VsaController.delete req id s
   = Outcome (Ok (Fault HTTPNotFound)) s1
             [vsa_api_delete (nova_context req) id]) ∧
  (perform (volume_api_get (nova_context req) id) s = (Raise NotFound, s1) ->
   delete this req vsa_id id s
   = Outcome (Ok (Fault HTTPNotFound)) s1
             [volume_api_get (nova_context req) id]).
Proof.
  split; intros Hmissing.
  - unfold VsaController.delete. eff_unfold. rewrite Hmissing. reflexivity.
  - unfold delete. eff_unfold.
    rewrite (check_not_found this _ vsa_id _ _ _ Hmissing). reflexivity.
Qed.
End ChildOperations.

(** ** The update whitelist *)

Section Whitelist.
Implicit Types (vol changes : record) (fields : list string).

Lemma if_elem_head {A} (f : string) fields (x y : A) :
  (if decide (f ∈ f :: fields) then x else y) = x.
Proof.
  destruct (decide (f ∈ f :: fields)) as [_|Hn]; [reflexivity|].
  exfalso. apply Hn. apply elem_of_cons. left. reflexivity.
Qed.

Lemma if_elem_tail {A} (k f : string) fields (x y : A) :
  k ≠ f ->
  (if decide (k ∈ f :: fields) then x else y)
  = (if decide (k ∈ fields) then x else y).
Proof.
  intros Hkf.
  destruct (decide (k ∈ f :: fields)) as [Hin|Hn],
           (decide (k ∈ fields)) as [Hin'|Hn']; try reflexivity; exfalso.
  - apply elem_of_cons in Hin as [?|?]; contradiction.
  - apply Hn. apply elem_of_cons. right. exact Hin'.
Qed.

(** On a dictionary the loop never fails: it copies the listed fields
    that the payload has and leaves the rest of [changes] alone. *)
Lemma collect_changes_dict vol fields changes :
  ∃ changes',
    collect_changes (PDict vol) fields changes = Ok changes' ∧
    ∀ k, changes' !! k =
         if decide (k ∈ fields)
         then match vol !! k with Some v => Some v | None => changes !! k end
         else changes !! k.
Proof.
  revert changes. induction fields as [|f fields IH]; intros changes; simpl.
  - eexists; split; reflexivity.
  - unfold mbind at 1, result_bind. simpl.
    destruct (vol !! f) as [v|] eqn:Hf.
    + rewrite bool_decide_eq_true_2 by eauto.
      unfold getitem. rewrite Hf. simpl.
      destruct (IH (<[f := v]> changes)) as (c' & -> & Hc').
      eexists; split; [reflexivity|]. intros k. rewrite Hc'.
      destruct (decide (k = f)) as [->|Hkf].
      * rewrite if_elem_head, Hf, lookup_insert_eq.
        destruct (decide (f ∈ fields)); reflexivity.
      * rewrite (if_elem_tail k f) by exact Hkf.
        rewrite lookup_insert_ne by congruence. reflexivity.
    + rewrite bool_decide_eq_false_2 by (intros [? ?]; congruence).
      destruct (IH changes) as (c' & -> & Hc').
      eexists; split; [reflexivity|]. intros k. rewrite Hc'.
      destruct (decide (k = f)) as [->|Hkf].
      * rewrite if_elem_head, Hf.
        destruct (decide (f ∈ fields)); reflexivity.
      * rewrite (if_elem_tail k f) by exact Hkf. reflexivity.
Qed.

Lemma collect_changes_whitelist vol :
  ∃ changes,
    collect_changes (PDict vol) updatable_fields ∅ = Ok changes ∧
    ∀ k, changes !! k = if decide (k ∈ updatable_fields) then vol !! k else None.
Proof.
  destruct (collect_changes_dict vol updatable_fields ∅) as (c & Hc & Hk).
  exists c. split; [exact Hc|]. intros k. rewrite Hk.
  case_decide; [|apply lookup_empty].
  destruct (vol !! k); [reflexivity | apply lookup_empty].
Qed.

(** Whatever the payload is, a key outside the list is never written. *)
Lemma collect_changes_other (payload : pyval) fields changes changes' k :
  collect_changes payload fields changes = Ok changes' ->
  k ∉ fields ->
  changes' !! k = changes !! k.
Proof.
  revert changes. induction fields as [|f fields IH]; intros changes; simpl.
  - intros [= <-] _. reflexivity.
  - intros Hrun Hk. apply not_elem_of_cons in Hk as [Hkf Hk].
    unfold mbind, result_bind in Hrun.
    destruct (py_contains payload f) as [[|]|]; [| |discriminate].
    + destruct (py_getitem payload f) as [v|]; [|discriminate].
      rewrite (IH _ Hrun Hk). apply lookup_insert_ne. congruence.
    + exact (IH _ Hrun Hk).
Qed.
End Whitelist.

Lemma lookup_all_none_empty (m : record) : (∀ k, m !! k = None) -> m = ∅.
Proof. intros Hm. apply map_eq. intros k. rewrite Hm, lookup_empty. reflexivity. Qed.

Section VolumeUpdate.
Context {B : Backend} {Py : Interpreter}.
#[local] Arguments collect_changes : simpl never.
Variables (req : request) (vsa_id id body : pyval).
Let context := nova_context req.

(** The ownership check makes exactly one call, the lookup of the
    child record. *)
Lemma check_trace (this : self) (s : store) :
  trace (_check_volume_ownership this context vsa_id id s)
  = [volume_api_get context id].
Proof.
  unfold _check_volume_ownership. eff_unfold.
  destruct (perform (volume_api_get context id) s) as [[R|e] s']; simpl;
    [|reflexivity].
  destruct (getitem R (direction this)); simpl; [|reflexivity].
  destruct (py_int vsa_id); simpl; [|reflexivity].
  destruct (py_ne_int _ _); reflexivity.
Qed.

(** The run of [update] after a passed ownership check, for a payload
    that is a dictionary. *)
Lemma update_owned (this : self) (s s1 : store) (R vol : record)
    (owner : pyval) (b : Z) :
  perform (volume_api_get context id) s = (Ok R, s1) ->
  R !! direction this = Some owner ->
  py_int vsa_id = Ok b ->
  py_ne_int owner b = false ->
  py_getitem body (object this) = Ok (PDict vol) ->
  ∃ changes,
    (∀ k, changes !! k
          = if decide (k ∈ updatable_fields) then vol !! k else None) ∧
    update this req vsa_id id body s
    = Outcome (update_answer (perform (volume_api_update context id changes) s1).1)
              (perform (volume_api_update context id changes) s1).2
              [volume_api_get context id; volume_api_update context id changes].
Proof.
  intros Hget Hown Hint Heq Hvol.
  pose proof (check_decides this _ vsa_id _ _ _ R _ _ Hget Hown Hint) as Hchk.
  rewrite Heq in Hchk.
  destruct (collect_changes_whitelist vol) as (changes & Hrun & Hkeys).
  exists changes. split; [exact Hkeys|].
  unfold update. eff_unfold. fold context. rewrite Hchk. simpl.
  rewrite Hvol. simpl. rewrite Hrun. simpl.
  destruct (perform (volume_api_update context id changes) s1) as [[u|e] s2];
    simpl; [reflexivity|].
  destruct e; reflexivity.
Qed.

(** C4. A volume update whose ownership check passes and whose
    payload is a dictionary makes one update call to the volume
    service; the changes it passes hold, for each of the five fields
    display_name, display_description, status, provider_location and
    provider_auth, what the payload holds, and nothing else. The other
    fields of the payload raise no error: the answer is decided by the
    service's reply alone. *)
Theorem update_passes_exactly_whitelisted
    (s s1 : store) (R vol : record) (owner : pyval) (b : Z) :
  perform (volume_api_get context id) s = (Ok R, s1) ->
  R !! "from_vsa_id" = Some owner ->
  py_int vsa_id = Ok b ->
  py_ne_int owner b = false ->
  py_getitem body "volume" = Ok (PDict vol) ->
  ∃ changes,
    (∀ k, changes !! k
          = if decide (k ∈ ["display_name"; "display_description"; "status";
                            "provider_location"; "provider_auth"])
            then vol !! k else None) ∧
    VsaVolumeController.update req vsa_id id body s
    = Outcome (update_answer (perform (volume_api_update context id changes) s1).1)
              (perform (volume_api_update context id changes) s1).2
              [volume_api_get context id; volume_api_update context id changes].
Proof. apply (update_owned VsaVolumeController.__init__). Qed.

(** C7. A volume update whose ownership check passes and whose
    payload holds none of the whitelisted fields calls the volume
    service with an empty changes map, and is accepted when the
    service accepts that call. *)
Theorem update_without_whitelisted_fields
    (s s1 s2 : store) (R vol : record) (owner : pyval) (b : Z) :
  perform (volume_api_get context id) s = (Ok R, s1) ->
  R !! "from_vsa_id" = Some owner ->
  py_int vsa_id = Ok b ->
  py_ne_int owner b = false ->
  py_getitem body "volume" = Ok (PDict vol) ->
  (∀ k, k ∈ updatable_fields -> vol !! k = None) ->
  perform (volume_api_update context id ∅) s1 = (Ok tt, s2) ->
  VsaVolumeController.update req vsa_id id body s
  = Outcome (Ok (Bare HTTPAccepted)) s2
            [volume_api_get context id; volume_api_update context id ∅].
Proof.
  intros Hget Hown Hint Heq Hvol Hnone Hupd.
  destruct (update_owned VsaVolumeController.__init__ _ _ _ _ _ _
              Hget Hown Hint Heq Hvol) as (changes & Hkeys & Hrun).
  assert (changes = ∅) as ->.
  { apply lookup_all_none_empty. intros k. rewrite Hkeys.
    case_decide; [apply Hnone; assumption | reflexivity]. }
  unfold VsaVolumeController.update. rewrite Hrun, Hupd. reflexivity.
Qed.

(** C10. The update matches the names of the payload against
    [display_name], [display_description] and the other internal
    column names: from a dictionary payload those two are copied, and
    [displayName] and [displayDescription] are not. And whatever the
    body, the parent id, the controller's direction and the state of
    the services, no update call that the operation makes carries
    [displayName] or [displayDescription]. *)
Theorem update_ignores_camel_case_names :
  (∀ vol : record, ∃ changes,
      collect_changes (PDict vol) updatable_fields ∅ = Ok changes ∧
      changes !! "display_name" = vol !! "display_name" ∧
      changes !! "display_description" = vol !! "display_description" ∧
      changes !! "displayName" = None ∧
      changes !! "displayDescription" = None) ∧
  (∀ (this : self) (s : store),
      Forall (leaves_unchanged "displayName")
             (trace (update this req vsa_id id body s)) ∧
      Forall (leaves_unchanged "displayDescription")
             (trace (update this req vsa_id id body s))).
Proof.
  split.
  - intros vol. destruct (collect_changes_whitelist vol) as (c & Hc & Hk).
    exists c. split; [exact Hc|]. rewrite !Hk. repeat split.
  - intros this s.
    assert (∀ key, key ∉ updatable_fields ->
              Forall (leaves_unchanged key)
                     (trace (update this req vsa_id id body s))) as Hall.
    { intros key Hkey. unfold update. eff_unfold. fold context.
      pose proof (check_trace this s) as Htr.
      destruct (_check_volume_ownership this context vsa_id id s)
        as [[[]|e] s1 tr]; simpl in *; subst tr.
      - destruct (py_getitem body (object this)) as [vol|]; simpl;
          [|repeat constructor].
        destruct (collect_changes vol updatable_fields ∅) as [c|] eqn:Hc;
          simpl; [|repeat constructor].
        assert (c !! key = None) as Hnone.
        { rewrite (collect_changes_other _ _ _ _ _ Hc Hkey).
          apply lookup_empty. }
        destruct (perform (volume_api_update context id c) s1)
          as [[u|e] s2]; simpl.
        + repeat constructor. exact Hnone.
        + destruct e; simpl; repeat constructor; exact Hnone.
      - destruct e; simpl; repeat constructor. }
    split; apply Hall; apply (bool_decide_unpack _); vm_compute; exact I.
Qed.
End VolumeUpdate.

(** ** The view projector *)

Lemma has_column (columns : list string) (row : record) (c : string) :
  has_columns columns row = true -> c ∈ columns -> ∃ v, row !! c = Some v.
Proof.
  unfold has_columns. rewrite forallb_forall. intros Hall Hc.
  apply list_elem_of_In in Hc. apply Hall in Hc.
  apply bool_decide_eq_true in Hc. exact Hc.
Qed.

Lemma falsy_dict (d : record) : truthy (PDict d) = false -> d = ∅.
Proof.
  simpl. destruct (map_to_list d) eqn:Hl; [|discriminate].
  intros _. apply map_to_list_empty_iff. exact Hl.
Qed.

Tactic Notation "column" constr(c) "of" hyp(H) "as" ident(v) ident(Hv) :=
  destruct (has_column _ _ c H) as [v Hv];
  [apply (bool_decide_unpack _); vm_compute; exact I|].

(** The aggregate view of a well-formed row, whatever the flag. *)
Lemma vsa_view_well_formed (context : pyval) (vsa : record) (details : bool) :
  well_formed_vsa vsa = true ->
  ∃ ident name display_name display_description created_at status t
    vc_count vol_count vc_type,
    vsa !! "vsa_instance_type" = Some t ∧
    (∀ d, t = PDict d -> vc_type = default PNone (d !! "name")) ∧
    VsaController._vsa_view context vsa details
    = Ok (<["driveCount" := vol_count]> (<["vcCount" := vc_count]>
         (<["vcType" := vc_type]> (<["status" := status]>
         (<["createTime" := created_at]>
         (<["displayDescription" := display_description]>
         (<["displayName" := display_name]> (<["name" := name]>
         (<["id" := ident]> ∅))))))))).
Proof.
  unfold well_formed_vsa. intros Hwf. apply andb_prop in Hwf as [Hcols Htype].
  column "id" of Hcols as ident Hid.
  column "name" of Hcols as name Hname.
  column "display_name" of Hcols as dn Hdn.
  column "display_description" of Hcols as dd Hdd.
  column "created_at" of Hcols as ct Hct.
  column "status" of Hcols as st Hst.
  column "vsa_instance_type" of Hcols as t Ht.
  column "vc_count" of Hcols as vc Hvc.
  column "vol_count" of Hcols as vol Hvol.
  rewrite Ht in Htype.
  assert (∃ vc_type,
            (if truthy t then py_get t "name" PNone else Ok PNone) = Ok vc_type ∧
            ∀ d, t = PDict d -> vc_type = default PNone (d !! "name"))
    as (vc_type & Hget & Hvc_type).
  { destruct (truthy t) eqn:Htruthy.
    - destruct t; simpl in Htype, Htruthy; try discriminate;
        try (rewrite Htruthy in Htype; discriminate).
      eexists; split; [reflexivity|]. intros d' [= <-]. reflexivity.
    - exists PNone. split; [reflexivity|]. intros d ->.
      rewrite (falsy_dict d Htruthy), lookup_empty. reflexivity. }
  exists ident, name, dn, dd, ct, st, t, vc, vol, vc_type.
  split; [exact Ht|]. split; [exact Hvc_type|].
  unfold VsaController._vsa_view, getitem.
  rewrite Hid, Hname, Hdn, Hdd, Hct, Hst, Ht, Hvc, Hvol. simpl.
  rewrite Hget. reflexivity.
Qed.

Lemma internal_only_cases (P : string -> Prop) :
  P "from_vsa_id" -> P "to_vsa_id" -> P "created_at" -> P "updated_at" ->
  P "deleted_at" -> P "deleted" -> P "provider_location" -> P "provider_auth" ->
  ∀ k, k ∈ internal_only -> P k.
Proof.
  intros ? ? ? ? ? ? ? ? k Hk. unfold internal_only in Hk.
  repeat (apply elem_of_cons in Hk as [->|Hk]; [assumption|]).
  inversion Hk.
Qed.

Section ViewProjector.
Context {B : Backend} {V : Volumes}.

(** C9. The aggregate view does not depend on its flag: the summary
    and the detailed view of a row are the same result, and so the
    index and the detail listing are the same computation. *)
Theorem vsa_view_ignores_details
    (context : pyval) (vsa : record) (req : request) (s : store) :
  VsaController._vsa_view context vsa false
  = VsaController._vsa_view context vsa true ∧
  VsaController.index req s = VsaController.detail req s.
Proof. split; reflexivity. Qed.

End ViewProjector.

(** ** Creating an aggregate *)

Section AggregateCreate.
Context {B : Backend} {F : Flags}.
Variables (req : request) (body : pyval) (vsa : record) (s : store).
Let context := nova_context req.
Let field (key : string) : pyval := default PNone (vsa !! key).
Let vc_type : pyval := default (PStr default_vsa_instance_type) (vsa !! "vcType").
Let placement : pyval := default (PDict ∅) (vsa !! "placement").

(** C5. For a body whose [vsa] entry is a dictionary (with a
    dictionary as placement, if any): the first call resolves the
    requested type name, which is the configured default when the
    body names none; if the catalogue reports that name as not found,
    the answer is the not-found fault; and if it yields a descriptor
    and the service returns a well-formed row referring to that
    descriptor, the answer is the row's view, whose [vcType] is the
    descriptor's name. *)
Theorem create_resolves_type (zone : record) :
  truthy body = true ->
  py_getitem body "vsa" = Ok (PDict vsa) ->
  placement = PDict zone ->
  (vsa !! "vcType" = None ->
   head (trace (VsaController.create req body s))
   = Some (get_instance_type_by_name (PStr default_vsa_instance_type))) ∧
  (∀ s1,
      perform (get_instance_type_by_name vc_type) s = (Raise NotFound, s1) ->
      VsaController.create req body s
      = Outcome (Ok (Fault HTTPNotFound)) s1
                [get_instance_type_by_name vc_type]) ∧
  (∀ s1 s2 (instance_type row : record),
      let creation :=
        vsa_api_create context (field "displayName")
          (field "displayDescription") (field "storage") (field "shared")
          instance_type (default PNone (zone !! "AvailabilityZone")) in
      perform (get_instance_type_by_name vc_type) s = (Ok instance_type, s1) ->
      perform creation s1 = (Ok row, s2) ->
      well_formed_vsa row = true ->
      row !! "vsa_instance_type" = Some (PDict instance_type) ->
      ∃ view,
        VsaController.create req body s
        = Outcome (Ok (Body {[ "vsa" := PDict view ]})) s2
                  [get_instance_type_by_name vc_type; creation] ∧
        view !! "vcType" = Some (default PNone (instance_type !! "name"))).
Proof.
  intros Hbody Hvsa Hzone.
  assert (VsaController.create req body s
          = (r ← attempt (invoke (get_instance_type_by_name vc_type));
             match r with
             | Raise NotFound => mret (Fault HTTPNotFound)
             | Raise e => lift (Raise e)
             | Ok instance_type =>
                 row ← invoke (vsa_api_create context (field "displayName")
                                 (field "displayDescription") (field "storage")
                                 (field "shared") instance_type
                                 (default PNone (zone !! "AvailabilityZone")));
                 view ← lift (VsaController._vsa_view context row true);
                 mret (Body {[ "vsa" := PDict view ]})
             end) s) as ->.
  { unfold VsaController.create. rewrite Hbody, Hvsa.
    cbv beta iota delta [negb py_get]. rewrite !bind_lift_ok.
    fold placement. rewrite Hzone. rewrite bind_lift_ok. reflexivity. }
  rewrite (bind_attempt_invoke (get_instance_type_by_name vc_type)).
  split; [|split].
  - intros Hnone. unfold vc_type. rewrite Hnone.
    cbv beta iota zeta delta [default trace head]. reflexivity.
  - intros s1 Hresolve. rewrite Hresolve. reflexivity.
  - intros s1 s2 it row creation Hresolve Hcreate Hwf Htype.
    destruct (vsa_view_well_formed context row true Hwf)
      as (i & n & dn & dd & ct & st & t & vc & vol & ty & Ht & Hty & Hview).
    rewrite Htype in Ht. injection Ht as <-.
    rewrite (Hty it eq_refl) in Hview. clear Hty.
    eexists. rewrite Hresolve. cbv beta iota zeta delta [fst snd].
    fold creation. rewrite (bind_invoke creation), Hcreate.
    cbv beta iota zeta delta [fst snd]. rewrite Hview, bind_lift_ok.
    split; [reflexivity|].
    rewrite lookup_insert_ne by discriminate.
    rewrite lookup_insert_ne by discriminate.
    apply lookup_insert_eq.
Qed.
End AggregateCreate.

(** ** Malformed bodies *)

Section BodyCheck.
Context {B : Backend} {F : Flags} {V : Volumes}.
Variables (req : request) (vsa_id body : pyval) (s : store).

(** C3, as the methods have it. The two [create] methods that read the
    body test it for emptiness only: an absent or empty body is answered
    with the unprocessable-entity fault and no collaborator is called.
    A body that passes the test is not checked further: when the
    wrapping key or, for a child, the size is missing, the [KeyError]
    of the subscript ends the method. *)
Theorem create_checks_body_for_emptiness_only :
  (truthy body = false ->
   VsaController.create req body s
   = Outcome (Ok (Fault HTTPUnprocessableEntity)) s [] ∧
   VsaVolumeController.create req vsa_id body s
   = Outcome (Ok (Fault HTTPUnprocessableEntity)) s []) ∧
  (∀ d : record,
      body = PDict d -> truthy body = true -> d !! "vsa" = None ->
      VsaController.create req body s = Outcome (Raise (KeyError "vsa")) s []) ∧
  (∀ d : record,
      body = PDict d -> truthy body = true -> d !! "volume" = None ->
      VsaVolumeController.create req vsa_id body s
      = Outcome (Raise (KeyError "volume")) s []) ∧
  (∀ d vol : record,
      body = PDict d -> truthy body = true ->
      d !! "volume" = Some (PDict vol) -> vol !! "size" = None ->
      VsaVolumeController.create req vsa_id body s
      = Outcome (Raise (KeyError "size")) s []).
Proof.
  unfold VsaVolumeController.create, create, VsaController.create.
  split; [|split; [|split]].
  - intros ->. split; reflexivity.
  - intros d -> -> Hkey. unfold py_getitem, getitem. rewrite Hkey. reflexivity.
  - intros d -> -> Hkey. unfold py_getitem, getitem.
    change (object VsaVolumeController.__init__) with "volume".
    rewrite Hkey. reflexivity.
  - intros d vol -> -> Hkey Hsize.
    assert (py_getitem (PDict d) "volume" = Ok (PDict vol)) as Hvol
      by (unfold py_getitem, getitem; rewrite Hkey; reflexivity).
    assert (py_getitem (PDict vol) "size" = Raise (KeyError "size")) as Hraise
      by (unfold py_getitem, getitem; rewrite Hsize; reflexivity).
    change (object VsaVolumeController.__init__) with "volume".
    cbv beta iota delta [negb]. rewrite Hvol, bind_lift_ok, Hraise. reflexivity.
Qed.
End BodyCheck.

(** ** The properties on the reference backend *)

Section Instances.
Import InMemory.
#[local] Existing Instance backend.
#[local] Existing Instance volumes_module.
#[local] Existing Instance flags.
#[local] Existing Instance CPython.interpreter.
Let volume9 : record := new_volume 9 (PInt 3) (PStr "vol") PNone (PStr "7").
Let lookup9 : call := volume_api_get (PStr "admin") (PStr "9").

Lemma ownership_mismatch_witness :
  let rejected := Outcome (B := backend) (Ok (Fault HTTPBadRequest)) sample [lookup9] in
  VsaVolumeController.show (B := backend) (V := volumes_module) request0 (PStr "5") (PStr "9") sample
  = rejected ∧
  VsaVolumeController.update (B := backend) request0 (PStr "5") (PStr "9") PNone sample
  = rejected ∧
  VsaVolumeController.delete (B := backend) (V := volumes_module) request0 (PStr "5") (PStr "9") sample
  = rejected ∧
  res (VsaDriveController.update (B := backend) request0 (PStr "5") (PStr "9") PNone sample)
  = Ok (Fault HTTPBadRequest).
Proof.
  apply (ownership_mismatch_is_bad_request (B := backend) (V := volumes_module)
           VsaVolumeController.__init__ request0 (PStr "5") (PStr "9") PNone
           sample sample volume9 7 5).
  - reflexivity.
  - reflexivity.
  - reflexivity.
  - lia.
Defined.

Let renaming : pyval :=
  PDict {[ "volume" :=
    PDict (<["display_name" := PStr "x"]> (<["displayName" := PStr "y"]>
          (<["size" := PInt 3]> ∅))) ]}.

Lemma update_whitelist_witness :
  ∃ changes : record,
    (∀ k, changes !! k
          = if decide (k ∈ ["display_name"; "display_description"; "status";
                            "provider_location"; "provider_auth"])
            then (<["display_name" := PStr "x"]> (<["displayName" := PStr "y"]>
                 (<["size" := PInt 3]> ∅)) : record) !! k
            else None) ∧
    VsaVolumeController.update (B := backend) request0 (PStr "7") (PStr "9")
      renaming sample
    = Outcome
        (update_answer
           (perform (Backend := backend) (volume_api_update (PStr "admin") (PStr "9") changes) sample).1)
        (perform (Backend := backend) (volume_api_update (PStr "admin") (PStr "9") changes) sample).2
        [lookup9; volume_api_update (PStr "admin") (PStr "9") changes].
Proof.
  apply (update_passes_exactly_whitelisted (B := backend) request0 (PStr "7")
           (PStr "9") renaming sample sample volume9
           (<["display_name" := PStr "x"]> (<["displayName" := PStr "y"]>
           (<["size" := PInt 3]> ∅))) (PInt 7) 7).
  - reflexivity.
  - reflexivity.
  - reflexivity.
  - reflexivity.
  - reflexivity.
Defined.

Let resizing : pyval :=
  PDict {[ "volume" :=
    PDict (<["displayName" := PStr "y"]> (<["size" := PInt 4]> ∅)) ]}.

Lemma update_empty_changes_witness :
  VsaVolumeController.update (B := backend) request0 (PStr "7") (PStr "9")
    resizing sample
  = Outcome (Ok (Bare HTTPAccepted)) sample
      [lookup9; volume_api_update (PStr "admin") (PStr "9") ∅].
Proof.
  apply (update_without_whitelisted_fields (B := backend) request0 (PStr "7")
           (PStr "9") resizing sample sample sample volume9
           (<["displayName" := PStr "y"]> (<["size" := PInt 4]> ∅))
           (PInt 7) 7).
  - reflexivity.
  - reflexivity.
  - reflexivity.
  - reflexivity.
  - reflexivity.
  - intros k Hk. unfold updatable_fields in Hk.
    repeat (apply elem_of_cons in Hk as [->|Hk]; [reflexivity|]).
    inversion Hk.
  - reflexivity.
Defined.

Lemma delete_twice_witness :
  let once := VsaController.delete (B := backend) request0 (PStr "5") sample in
  let gone := VsaVolumeController.delete (B := backend) (V := volumes_module) request0
                (PStr "7") (PStr "9") (final once) in
  (res once = Ok (Bare HTTPAccepted) ∧ res gone = Ok (Bare HTTPAccepted)) ∧
  VsaController.delete (B := backend) request0 (PStr "5") (final gone)
  = Outcome (Ok (Fault HTTPNotFound)) (final gone)
      [vsa_api_delete (PStr "admin") (PStr "5")] ∧
  VsaVolumeController.delete (B := backend) (V := volumes_module) request0 (PStr "7") (PStr "9")
    (final gone)
  = Outcome (Ok (Fault HTTPNotFound)) (final gone) [lookup9].
Proof.
  intros once gone.
  split; [split; reflexivity|]. split.
  - apply (proj1 (delete_missing_is_not_found (B := backend) (V := volumes_module)
                    VsaVolumeController.__init__ request0 (PStr "7") (PStr "5")
                    (final gone) (final gone))).
    reflexivity.
  - apply (proj2 (delete_missing_is_not_found (B := backend) (V := volumes_module)
                    VsaVolumeController.__init__ request0 (PStr "7") (PStr "9")
                    (final gone) (final gone))).
    reflexivity.
Defined.

Let vsa5 : record := new_vsa 5 (PStr "arr1") PNone m1_small.

Let naming : record :=
  <["displayName" := PStr "arr1"]> (<["storage" := PStr "10GB"]> ∅).
Let resolve_default : call := get_instance_type_by_name (PStr "m1.small").
Let resolve_huge : call := get_instance_type_by_name (PStr "m9.huge").

Lemma create_resolves_type_witness :
  head (trace (VsaController.create (B := backend) (F := flags) request0
                 (PDict {[ "vsa" := PDict naming ]}) sample))
  = Some resolve_default ∧
  VsaController.create (B := backend) (F := flags) request0
    (PDict {[ "vsa" := PDict (<["vcType" := PStr "m9.huge"]> naming) ]}) sample
  = Outcome (Ok (Fault HTTPNotFound)) sample [resolve_huge] ∧
  ∃ view,
    res (VsaController.create (B := backend) (F := flags) request0
           (PDict {[ "vsa" := PDict naming ]}) sample)
    = Ok (Body {[ "vsa" := PDict view ]}) ∧
    view !! "vcType" = Some (PStr "m1.small").
Proof.
  edestruct (create_resolves_type (B := backend) (F := flags) request0
               (PDict {[ "vsa" := PDict naming ]}) naming sample ∅)
    as (Hdefault & _ & Hcreated); [reflexivity | reflexivity | reflexivity |].
  edestruct (create_resolves_type (B := backend) (F := flags) request0
               (PDict {[ "vsa" := PDict (<["vcType" := PStr "m9.huge"]> naming) ]})
               (<["vcType" := PStr "m9.huge"]> naming) sample ∅)
    as (_ & Hunknown & _); [reflexivity | reflexivity | reflexivity |].
  split; [|split].
  - apply Hdefault. reflexivity.
  - apply Hunknown. reflexivity.
  - edestruct (Hcreated sample
                 (Db (<[10 := new_vsa 10 (PStr "arr1") PNone m1_small]> (vsas sample))
                     (volumes sample) (instance_types sample) 11)
                 m1_small (new_vsa 10 (PStr "arr1") PNone m1_small))
      as (view & Hrun & Hview);
      [reflexivity | reflexivity | reflexivity | reflexivity |].
    exists view. split; [rewrite Hrun; reflexivity | exact Hview].
Defined.

Lemma malformed_body_counterexample :
  res (VsaVolumeController.create (B := backend) (V := volumes_module) request0
         (PStr "7") (PDict {[ "volume" := PDict {[ "displayName" := PStr "v" ]} ]})
         sample)
  = Raise (KeyError "size") ∧
  res (VsaController.create (B := backend) (F := flags) request0
         (PDict {[ "volume" := PDict ∅ ]}) sample)
  = Raise (KeyError "vsa") ∧
  res (VsaVolumeController.update (B := backend) request0 (PStr "7") (PStr "9")
         (PDict ∅) sample)
  = Raise (KeyError "volume") ∧
  res (VsaVolumeController.update (B := backend) request0 (PStr "7") (PStr "9")
         PNone sample)
  = Raise TypeError.
Proof. repeat split; reflexivity. Qed.

Lemma create_body_check_witness :
  (VsaController.create (B := backend) (F := flags) request0 (PDict ∅) sample
   = Outcome (Ok (Fault HTTPUnprocessableEntity)) sample [] ∧
   VsaVolumeController.create (B := backend) (V := volumes_module) request0
     (PStr "7") (PDict ∅) sample
   = Outcome (Ok (Fault HTTPUnprocessableEntity)) sample []) ∧
  VsaController.create (B := backend) (F := flags) request0
    (PDict {[ "volume" := PDict {[ "displayName" := PStr "v" ]} ]}) sample
  = Outcome (Raise (KeyError "vsa")) sample [] ∧
  VsaVolumeController.create (B := backend) (V := volumes_module) request0
    (PStr "7") (PDict {[ "vsa" := PDict ∅ ]}) sample
  = Outcome (Raise (KeyError "volume")) sample [] ∧
  VsaVolumeController.create (B := backend) (V := volumes_module) request0
    (PStr "7") (PDict {[ "volume" := PDict {[ "displayName" := PStr "v" ]} ]})
    sample
  = Outcome (Raise (KeyError "size")) sample [].
Proof.
  split; [|split; [|split]].
  - apply (proj1 (create_checks_body_for_emptiness_only (B := backend)
                    (F := flags) (V := volumes_module) request0 (PStr "7")
                    (PDict ∅) sample)).
    reflexivity.
  - eapply (proj1 (proj2 (create_checks_body_for_emptiness_only (B := backend)
                    (F := flags) (V := volumes_module) request0 (PStr "7")
                    _ sample))); reflexivity.
  - eapply (proj1 (proj2 (proj2 (create_checks_body_for_emptiness_only
                    (B := backend) (F := flags) (V := volumes_module) request0
                    (PStr "7") _ sample)))); reflexivity.
  - eapply (proj2 (proj2 (proj2 (create_checks_body_for_emptiness_only
                    (B := backend) (F := flags) (V := volumes_module) request0
                    (PStr "7") _ sample)))); reflexivity.
Defined.
End Instances.

(** * Further properties *)

(** ** More on the aggregate view *)

Section AggregateView.
Variables (context : pyval) (vsa : record) (details : bool).

(** How the view ends, read column by column. *)
Lemma vsa_view_outcome :
  match VsaController._vsa_view context vsa details with
  | Ok _ => well_formed_vsa vsa = true
  | Raise e =>
      (∃ c, c ∈ vsa_columns ∧ vsa !! c = None ∧ e = KeyError c) ∨
      (∃ t, vsa !! "vsa_instance_type" = Some t ∧ truthy t = true ∧
            (∀ d, t ≠ PDict d) ∧ e = AttributeError)
  end.
Proof.
  assert (∀ c, c ∈ vsa_columns -> vsa !! c = None ->
            (∃ c', c' ∈ vsa_columns ∧ vsa !! c' = None ∧ KeyError c = KeyError c') ∨
            (∃ t, vsa !! "vsa_instance_type" = Some t ∧ truthy t = true ∧
                  (∀ d, t ≠ PDict d) ∧ KeyError c = AttributeError)) as Hmissing.
  { intros c Hc Hnone. left. exists c. auto. }
  assert (∀ c, bool_decide (c ∈ vsa_columns) = true -> c ∈ vsa_columns) as Hin.
  { intros c Hc. apply bool_decide_eq_true in Hc. exact Hc. }
  unfold VsaController._vsa_view, getitem, mbind, result_bind, mret, result_ret.
  destruct (vsa !! "id") as [v1|] eqn:H1;
    [|apply Hmissing; [apply Hin; reflexivity | assumption]].
  destruct (vsa !! "name") as [v2|] eqn:H2;
    [|apply Hmissing; [apply Hin; reflexivity | assumption]].
  destruct (vsa !! "display_name") as [v3|] eqn:H3;
    [|apply Hmissing; [apply Hin; reflexivity | assumption]].
  destruct (vsa !! "display_description") as [v4|] eqn:H4;
    [|apply Hmissing; [apply Hin; reflexivity | assumption]].
  destruct (vsa !! "created_at") as [v5|] eqn:H5;
    [|apply Hmissing; [apply Hin; reflexivity | assumption]].
  destruct (vsa !! "status") as [v6|] eqn:H6;
    [|apply Hmissing; [apply Hin; reflexivity | assumption]].
  destruct (vsa !! "vsa_instance_type") as [t|] eqn:H7;
    [|apply Hmissing; [apply Hin; reflexivity | assumption]].
  assert (∀ v8 v9, vsa !! "vc_count" = Some v8 -> vsa !! "vol_count" = Some v9 ->
          (truthy t = false ∨ ∃ d, t = PDict d) -> well_formed_vsa vsa = true)
    as Hwf.
  { intros v8 v9 H8 H9 Htype.
    unfold well_formed_vsa, has_columns, vsa_columns. cbv [forallb].
    rewrite H1, H2, H3, H4, H5, H6, H7, H8, H9.
    rewrite !bool_decide_eq_true_2 by eauto. cbn [andb].
    destruct Htype as [Hfalse|[d ->]]; [|reflexivity].
    rewrite Hfalse. destruct t; reflexivity. }
  destruct (truthy t) eqn:Htruthy.
  - destruct (py_get t "name" PNone) as [v7|e] eqn:Hget.
    + destruct t as [| | | | |d]; try discriminate Hget.
      destruct (vsa !! "vc_count") as [v8|] eqn:H8;
        [|apply Hmissing; [apply Hin; reflexivity | assumption]].
      destruct (vsa !! "vol_count") as [v9|] eqn:H9;
        [|apply Hmissing; [apply Hin; reflexivity | assumption]].
      apply (Hwf v8 v9); eauto.
    + right. exists t. split; [reflexivity|]. split; [exact Htruthy|].
      destruct t; simpl in Hget; try discriminate Hget;
        injection Hget as <-; (split; [discriminate | reflexivity]).
  - destruct (vsa !! "vc_count") as [v8|] eqn:H8;
      [|apply Hmissing; [apply Hin; reflexivity | assumption]].
    destruct (vsa !! "vol_count") as [v9|] eqn:H9;
      [|apply Hmissing; [apply Hin; reflexivity | assumption]].
    apply (Hwf v8 v9); auto.
Qed.

(** X1. The aggregate view is defined on the well-formed rows and on no
    other: it succeeds exactly when every column it reads is there and
    the type reference is a row or a false value. *)
Theorem vsa_view_defined_iff_well_formed :
  (∃ view, VsaController._vsa_view context vsa details = Ok view)
  ↔ well_formed_vsa vsa = true.
Proof.
  split.
  - intros [view Hview]. pose proof vsa_view_outcome as Hout.
    rewrite Hview in Hout. exact Hout.
  - intros Hwf.
    destruct (vsa_view_well_formed context vsa details Hwf)
      as (i & n & dn & dd & ct & st & t & vc & vol & ty & _ & _ & Hview).
    eexists. exact Hview.
Qed.

(** X2. Whenever the aggregate view fails, it is with the [KeyError]
    of a column that the row lacks, or with [AttributeError] because
    the type reference is a true value without a [get] method. *)
Theorem vsa_view_failure (e : exn) :
  VsaController._vsa_view context vsa details = Raise e ->
  (∃ c, c ∈ vsa_columns ∧ vsa !! c = None ∧ e = KeyError c) ∨
  (∃ t, vsa !! "vsa_instance_type" = Some t ∧ truthy t = true ∧
        (∀ d, t ≠ PDict d) ∧ e = AttributeError).
Proof.
  intros Hview. pose proof vsa_view_outcome as Hout.
  rewrite Hview in Hout. exact Hout.
Qed.

(** The view of a row that has the nine columns. *)
Lemma vsa_view_explicit (v1 v2 v3 v4 v5 v6 t v8 v9 : pyval) :
  vsa !! "id" = Some v1 -> vsa !! "name" = Some v2 ->
  vsa !! "display_name" = Some v3 -> vsa !! "display_description" = Some v4 ->
  vsa !! "created_at" = Some v5 -> vsa !! "status" = Some v6 ->
  vsa !! "vsa_instance_type" = Some t ->
  vsa !! "vc_count" = Some v8 -> vsa !! "vol_count" = Some v9 ->
  VsaController._vsa_view context vsa details
  = match (if truthy t then py_get t "name" PNone else Ok PNone) with
    | Ok v7 =>
        Ok (<["driveCount" := v9]> (<["vcCount" := v8]> (<["vcType" := v7]>
           (<["status" := v6]> (<["createTime" := v5]>
           (<["displayDescription" := v4]> (<["displayName" := v3]>
           (<["name" := v2]> (<["id" := v1]> ∅)))))))))
    | Raise e => Raise e
    end.
Proof.
  intros H1 H2 H3 H4 H5 H6 H7 H8 H9.
  unfold VsaController._vsa_view, getitem, mbind, result_bind, mret, result_ret.
  rewrite H1, H2, H3, H4, H5, H6, H7, H8, H9.
  destruct (if truthy t then py_get t "name" PNone else Ok PNone); reflexivity.
Qed.

(** X3. A view that the aggregate projector returns has the nine
    external keys and no other; each holds the value of the column it
    renames, and [vcType] holds the name of the type row, or [None]
    when the type reference is unset or the type row has no name. *)
Theorem vsa_view_renames_columns (view : record) :
  VsaController._vsa_view context vsa details = Ok view ->
  view !! "id" = vsa !! "id" ∧
  view !! "name" = vsa !! "name" ∧
  view !! "displayName" = vsa !! "display_name" ∧
  view !! "displayDescription" = vsa !! "display_description" ∧
  view !! "createTime" = vsa !! "created_at" ∧
  view !! "status" = vsa !! "status" ∧
  view !! "vcCount" = vsa !! "vc_count" ∧
  view !! "driveCount" = vsa !! "vol_count" ∧
  view !! "vcType"
  = Some match vsa !! "vsa_instance_type" with
         | Some (PDict type) => default PNone (type !! "name")
         | _ => PNone
         end ∧
  (∀ k, k ∉ vsa_view_keys -> view !! k = None).
Proof.
  intros Hview. pose proof vsa_view_outcome as Hwf.
  rewrite Hview in Hwf.
  unfold well_formed_vsa in Hwf. apply andb_prop in Hwf as [Hcols Htype].
  column "id" of Hcols as v1 H1. column "name" of Hcols as v2 H2.
  column "display_name" of Hcols as v3 H3.
  column "display_description" of Hcols as v4 H4.
  column "created_at" of Hcols as v5 H5.
  column "status" of Hcols as v6 H6.
  column "vsa_instance_type" of Hcols as t H7.
  column "vc_count" of Hcols as v8 H8.
  column "vol_count" of Hcols as v9 H9.
  rewrite (vsa_view_explicit _ _ _ _ _ _ _ _ _ H1 H2 H3 H4 H5 H6 H7 H8 H9)
    in Hview.
  rewrite H1, H2, H3, H4, H5, H6, H7, H8, H9.
  assert ((if truthy t then py_get t "name" PNone else Ok PNone)
          = Ok match t with
               | PDict type => default PNone (type !! "name")
               | _ => PNone
               end) as Htype_name.
  { destruct (truthy t) eqn:Htruthy.
    - destruct t; try reflexivity; simpl in Hview; discriminate Hview.
    - destruct t as [| | | | |d]; try reflexivity.
      rewrite (falsy_dict d Htruthy), lookup_empty. reflexivity. }
  rewrite Htype_name in Hview. injection Hview as <-.
  repeat (split; [rewrite ?lookup_insert_eq;
                  rewrite ?lookup_insert_ne by discriminate;
                  rewrite ?lookup_insert_eq; reflexivity|]).
  intros k Hk. unfold vsa_view_keys in Hk.
  repeat (apply not_elem_of_cons in Hk as [? Hk]).
  rewrite !lookup_insert_ne by congruence. apply lookup_empty.
Qed.
End AggregateView.

(** ** The projections, key by key *)

Lemma keys_exactly (view : record) (keys : list string) :
  (∀ k, k ∈ keys -> is_Some (view !! k)) ->
  (∀ k, k ∉ keys -> view !! k = None) ->
  ∀ k, is_Some (view !! k) ↔ k ∈ keys.
Proof.
  intros Hin Hout k. split; [|apply Hin].
  intros Hk. destruct (decide (k ∈ keys)) as [|Hnot]; [assumption|].
  rewrite (Hout k Hnot) in Hk. destruct Hk as [? Hk]. discriminate Hk.
Qed.

Lemma internal_only_not_external (k : string) :
  k ∈ internal_only -> (k ∉ vsa_view_keys) ∧ (k ∉ volume_view_keys).
Proof.
  revert k. apply internal_only_cases; split;
    apply (bool_decide_unpack _); reflexivity.
Qed.

(** The translation of a child row that has the seven columns, as
    modelled from the spec. *)
Lemma translate_view_explicit (context : pyval) (vol : record)
    (v1 v2 v3 v4 v5 v6 v7 : pyval) :
  vol !! "id" = Some v1 -> vol !! "status" = Some v2 ->
  vol !! "size" = Some v3 -> vol !! "availability_zone" = Some v4 ->
  vol !! "created_at" = Some v5 -> vol !! "display_name" = Some v6 ->
  vol !! "display_description" = Some v7 ->
  InMemory.translate_view context vol
  = Ok (<["displayDescription" := v7]> (<["displayName" := v6]>
       (<["createdAt" := v5]> (<["availabilityZone" := v4]>
       (<["size" := v3]> (<["status" := v2]> (<["id" := v1]> ∅))))))).
Proof.
  intros H1 H2 H3 H4 H5 H6 H7.
  unfold InMemory.translate_view, getitem, mbind, result_bind, mret, result_ret.
  rewrite H1, H2, H3, H4, H5, H6, H7. reflexivity.
Qed.

Ltac lookup_in_view :=
  rewrite ?lookup_insert_eq;
  rewrite ?lookup_insert_ne by discriminate;
  rewrite ?lookup_insert_eq.

(** C6. For a well-formed aggregate row both projections succeed and
    every field of the summary is in the detailed view with the same
    value; the keys of either are exactly the nine external names,
    eight of them holding the column they rename and [vcType] the name
    of the type row, so that no internal-only name is among them.
    The child projection is the translation of
    [nova.api.openstack.contrib.volumes] for the flag, extended by the
    row's owning link under [vsaId] and by nothing else. With the
    translations modelled from the spec, for a row that has its link
    and the seven columns: both child projections succeed, the summary
    is within the detailed view, the keys of either are exactly the
    seven external names and [vsaId], each holding the column it
    renames, and no internal-only name is among them. *)
Theorem summary_within_detail_no_internal_fields :
  (∀ (context : pyval) (vsa : record),
      well_formed_vsa vsa = true ->
      ∃ summary detailed,
        VsaController._vsa_view context vsa false = Ok summary ∧
        VsaController._vsa_view context vsa true = Ok detailed ∧
        (∀ k v, summary !! k = Some v -> detailed !! k = Some v) ∧
        (∀ k, is_Some (summary !! k) ↔ k ∈ vsa_view_keys) ∧
        (∀ k, is_Some (detailed !! k) ↔ k ∈ vsa_view_keys) ∧
        (∀ external column,
            (external, column) ∈ vsa_renaming ->
            summary !! external = vsa !! column ∧
            detailed !! external = vsa !! column) ∧
        summary !! "vcType"
        = Some match vsa !! "vsa_instance_type" with
               | Some (PDict type) => default PNone (type !! "name")
               | _ => PNone
               end ∧
        (∀ k, k ∈ internal_only ->
              summary !! k = None ∧ detailed !! k = None)) ∧
  (∀ (B : Backend) (V : Volumes) (this : self) (context vsa_id owner : pyval)
     (vol ts td : record),
      vol !! direction this = Some owner ->
      translate_volume_summary_view context vol = Ok ts ->
      translate_volume_detail_view context vol = Ok td ->
      _translation this context vol vsa_id false = Ok (<["vsaId" := owner]> ts) ∧
      _translation this context vol vsa_id true = Ok (<["vsaId" := owner]> td)) ∧
  (∀ (this : self) (context vsa_id : pyval) (vol : record),
      has_columns (direction this :: volume_renaming.*2) vol = true ->
      ∃ summary detailed,
        _translation (V := InMemory.volumes_module) this context vol vsa_id false
        = Ok summary ∧
        _translation (V := InMemory.volumes_module) this context vol vsa_id true
        = Ok detailed ∧
        (∀ k v, summary !! k = Some v -> detailed !! k = Some v) ∧
        (∀ k, is_Some (summary !! k) ↔ k ∈ volume_view_keys) ∧
        (∀ k, is_Some (detailed !! k) ↔ k ∈ volume_view_keys) ∧
        (∀ external column,
            (external, column) ∈ volume_renaming ->
            summary !! external = vol !! column ∧
            detailed !! external = vol !! column) ∧
        summary !! "vsaId" = vol !! direction this ∧
        detailed !! "vsaId" = vol !! direction this ∧
        (∀ k, k ∈ internal_only ->
              summary !! k = None ∧ detailed !! k = None)).
Proof.
  split; [|split].
  - intros context vsa Hwf.
    assert (Hwf' := Hwf).
    unfold well_formed_vsa in Hwf'. apply andb_prop in Hwf' as [Hcols Htype].
    column "id" of Hcols as v1 H1. column "name" of Hcols as v2 H2.
    column "display_name" of Hcols as v3 H3.
    column "display_description" of Hcols as v4 H4.
    column "created_at" of Hcols as v5 H5.
    column "status" of Hcols as v6 H6.
    column "vsa_instance_type" of Hcols as t H7.
    column "vc_count" of Hcols as v8 H8.
    column "vol_count" of Hcols as v9 H9.
    assert (∀ details, VsaController._vsa_view context vsa details
            = Ok (<["driveCount" := v9]> (<["vcCount" := v8]>
                 (<["vcType" := match t with
                                | PDict type => default PNone (type !! "name")
                                | _ => PNone
                                end]>
                 (<["status" := v6]> (<["createTime" := v5]>
                 (<["displayDescription" := v4]> (<["displayName" := v3]>
                 (<["name" := v2]> (<["id" := v1]> ∅)))))))))) as Hview.
    { intros details.
      rewrite (vsa_view_explicit context vsa details _ _ _ _ _ _ _ _ _
                 H1 H2 H3 H4 H5 H6 H7 H8 H9).
      rewrite H7 in Htype.
      destruct (truthy t) eqn:Htruthy.
      - destruct t; simpl in Htype, Htruthy; try discriminate;
          try (rewrite Htruthy in Htype; discriminate).
        reflexivity.
      - destruct t as [| | | | |d]; try reflexivity.
        rewrite (falsy_dict d Htruthy), lookup_empty. reflexivity. }
    eexists _, _. split; [apply Hview|]. split; [apply Hview|].
    assert (∀ k, k ∉ vsa_view_keys ->
              (<["driveCount" := v9]> (<["vcCount" := v8]>
              (<["vcType" := match t with
                             | PDict type => default PNone (type !! "name")
                             | _ => PNone
                             end]>
              (<["status" := v6]> (<["createTime" := v5]>
              (<["displayDescription" := v4]> (<["displayName" := v3]>
              (<["name" := v2]> (<["id" := v1]> ∅)))))))) : record) !! k = None)
      as Hout.
    { intros k Hk. unfold vsa_view_keys in Hk.
      repeat (apply not_elem_of_cons in Hk as [? Hk]).
      rewrite !lookup_insert_ne by congruence. apply lookup_empty. }
    assert (∀ k, is_Some
              ((<["driveCount" := v9]> (<["vcCount" := v8]>
              (<["vcType" := match t with
                             | PDict type => default PNone (type !! "name")
                             | _ => PNone
                             end]>
              (<["status" := v6]> (<["createTime" := v5]>
              (<["displayDescription" := v4]> (<["displayName" := v3]>
              (<["name" := v2]> (<["id" := v1]> ∅)))))))) : record) !! k)
              ↔ k ∈ vsa_view_keys) as Hkeys.
    { apply keys_exactly; [|exact Hout].
      intros k Hk. unfold vsa_view_keys in Hk.
      repeat (apply elem_of_cons in Hk as [->|Hk];
              [lookup_in_view; eauto|]).
      inversion Hk. }
    split; [auto|]. split; [exact Hkeys|]. split; [exact Hkeys|].
    split; [|split].
    + intros external column Hpair. unfold vsa_renaming in Hpair.
      repeat (apply elem_of_cons in Hpair as [[= -> ->]|Hpair];
              [split; lookup_in_view; congruence|]).
      inversion Hpair.
    + rewrite H7. lookup_in_view. reflexivity.
    + intros k Hk. destruct (internal_only_not_external k Hk) as [Hnot _].
      split; apply Hout; exact Hnot.
  - intros B V this context vsa_id owner vol ts td Hown Hts Htd.
    unfold _translation, getitem. rewrite Hts, Htd, Hown. split; reflexivity.
  - intros this context vsa_id vol Hcols.
    destruct (has_column _ _ (direction this) Hcols) as [owner Hown];
      [apply elem_of_cons; left; reflexivity|].
    assert (has_columns volume_renaming.*2 vol = true) as Hrest.
    { unfold has_columns in *. simpl forallb in Hcols.
      apply andb_prop in Hcols as [_ Hcols]. exact Hcols. }
    column "id" of Hrest as v1 H1. column "status" of Hrest as v2 H2.
    column "size" of Hrest as v3 H3.
    column "availability_zone" of Hrest as v4 H4.
    column "created_at" of Hrest as v5 H5.
    column "display_name" of Hrest as v6 H6.
    column "display_description" of Hrest as v7 H7.
    pose proof (translate_view_explicit context vol _ _ _ _ _ _ _
                  H1 H2 H3 H4 H5 H6 H7) as Hview.
    assert (∀ details,
              _translation (V := InMemory.volumes_module) this context vol
                vsa_id details
              = Ok (<["vsaId" := owner]>
                   (<["displayDescription" := v7]> (<["displayName" := v6]>
                   (<["createdAt" := v5]> (<["availabilityZone" := v4]>
                   (<["size" := v3]> (<["status" := v2]>
                   (<["id" := v1]> ∅))))))))) as Hchild.
    { intros details. unfold _translation, getitem.
      change (if details then translate_volume_detail_view
              else translate_volume_summary_view)
        with (if details then InMemory.translate_view
              else InMemory.translate_view).
      destruct details; rewrite Hview, Hown; reflexivity. }
    eexists _, _. split; [apply Hchild|]. split; [apply Hchild|].
    assert (∀ k, k ∉ volume_view_keys ->
              (<["vsaId" := owner]>
              (<["displayDescription" := v7]> (<["displayName" := v6]>
              (<["createdAt" := v5]> (<["availabilityZone" := v4]>
              (<["size" := v3]> (<["status" := v2]>
              (<["id" := v1]> ∅))))))) : record) !! k = None) as Hout.
    { intros k Hk. unfold volume_view_keys in Hk.
      repeat (apply not_elem_of_cons in Hk as [? Hk]).
      rewrite !lookup_insert_ne by congruence. apply lookup_empty. }
    assert (∀ k, is_Some
              ((<["vsaId" := owner]>
              (<["displayDescription" := v7]> (<["displayName" := v6]>
              (<["createdAt" := v5]> (<["availabilityZone" := v4]>
              (<["size" := v3]> (<["status" := v2]>
              (<["id" := v1]> ∅))))))) : record) !! k)
              ↔ k ∈ volume_view_keys) as Hkeys.
    { apply keys_exactly; [|exact Hout].
      intros k Hk. unfold volume_view_keys in Hk.
      repeat (apply elem_of_cons in Hk as [->|Hk];
              [lookup_in_view; eauto|]).
      inversion Hk. }
    split; [auto|]. split; [exact Hkeys|]. split; [exact Hkeys|].
    split; [|split; [|split]].
    + intros external column Hpair. unfold volume_renaming in Hpair.
      repeat (apply elem_of_cons in Hpair as [[= -> ->]|Hpair];
              [split; lookup_in_view; congruence|]).
      inversion Hpair.
    + rewrite Hown. apply lookup_insert_eq.
    + rewrite Hown. apply lookup_insert_eq.
    + intros k Hk. destruct (internal_only_not_external k Hk) as [_ Hnot].
      split; apply Hout; exact Hnot.
Qed.

(** ** Listings *)

Section Traversal.
Context {A C : Type} (f : A -> result C).

Lemma mapM_ok (l : list A) (ys : list C) :
  mapM f l = Ok ys ↔ Forall2 (fun x y => f x = Ok y) l ys.
Proof.
  revert ys. induction l as [|x l IH]; intros ys; simpl.
  - split.
    + intros [= <-]. constructor.
    + intros Hall. inversion Hall. reflexivity.
  - split.
    + destruct (f x) as [y|] eqn:Hx; [|discriminate].
      destruct (mapM f l) as [ys'|] eqn:Hl; [|discriminate].
      intros [= <-]. constructor; [exact Hx | apply IH; reflexivity].
    + intros Hall. inversion Hall as [|? y ? ys' Hx Hl]; subst.
      rewrite Hx. apply IH in Hl. rewrite Hl. reflexivity.
Qed.

Lemma mapM_all_ok (l : list A) :
  Forall (fun x => ∃ y, f x = Ok y) l -> ∃ ys, mapM f l = Ok ys.
Proof.
  induction 1 as [|x l [y Hx] _ [ys Hl]]; simpl.
  - eexists. reflexivity.
  - rewrite Hx, Hl. eexists. reflexivity.
Qed.

Lemma mapM_first_raise (good rest : list A) (bad : A) (e : exn) :
  Forall (fun x => ∃ y, f x = Ok y) good ->
  f bad = Raise e ->
  mapM f (good ++ bad :: rest) = Raise e.
Proof.
  intros Hgood Hbad. induction Hgood as [|x l [y Hx] _ IH]; simpl.
  - rewrite Hbad. reflexivity.
  - rewrite Hx. simpl in IH. rewrite IH. reflexivity.
Qed.
End Traversal.

Section Listing.
Context {B : Backend}.

Lemma for_each_lift {A C} (f : A -> result C) (l : list A) (s : store) :
  for_each (fun x => lift (f x)) l s = Outcome (mapM f l) s [].
Proof.
  induction l as [|x l IH]; simpl; [reflexivity|].
  unfold eff_bind. change (lift (f x) s) with (Outcome (f x) s []).
  cbv zeta. cbn [res final trace].
  destruct (f x) as [y|e]; [|reflexivity].
  rewrite IH. cbn [res final trace].
  destruct (mapM f l); reflexivity.
Qed.

(** The last step of the two listings: projecting the rows. *)
Lemma project_rows {A C} (f : A -> result C) (wrap : list C -> record)
    (rows : list A) (s : store) :
  (views ← for_each (fun x => lift (f x)) rows; mret (Body (wrap views))) s
  = Outcome (views ← mapM f rows; Ok (Body (wrap views))) s [].
Proof.
  unfold mbind at 1, Eff_bind, eff_bind. rewrite for_each_lift.
  cbn [res final trace]. destruct (mapM f rows); reflexivity.
Qed.

Variables (req : request) (details : bool) (s s1 s2 : store).
Let context := nova_context req.

(** The aggregate listing after its two calls. *)
Lemma vsa_items_run (vsas rows : list record) :
  perform (vsa_api_get_all context) s = (Ok vsas, s1) ->
  perform (common_limited vsas req) s1 = (Ok rows, s2) ->
  VsaController._items req details s
  = Outcome (views ← mapM (fun vsa => VsaController._vsa_view context vsa details)
                          rows;
             Ok (Body {[ "vsaSet" := PList (PDict <$> views) ]}))
            s2 [vsa_api_get_all context; common_limited vsas req].
Proof.
  intros Hall Hlimited. unfold VsaController._items. fold context.
  rewrite (bind_invoke (vsa_api_get_all context)), Hall.
  cbv beta iota zeta delta [fst snd].
  rewrite (bind_invoke (common_limited vsas req)), Hlimited.
  cbv beta iota zeta delta [fst snd].
  rewrite (project_rows _ (fun views => {[ "vsaSet" := PList (PDict <$> views) ]})).
  reflexivity.
Qed.

(** X4. When the limiter returns well-formed rows, the aggregate
    listing (index or detail) answers with one view per row, in the
    order of the rows, after exactly two calls: fetching all aggregates
    and limiting them. *)
Theorem vsa_listing_has_a_view_per_row (vsas rows : list record) :
  perform (vsa_api_get_all context) s = (Ok vsas, s1) ->
  perform (common_limited vsas req) s1 = (Ok rows, s2) ->
  Forall (fun row => well_formed_vsa row = true) rows ->
  ∃ views,
    VsaController._items req details s
    = Outcome (Ok (Body {[ "vsaSet" := PList (PDict <$> views) ]})) s2
              [vsa_api_get_all context; common_limited vsas req] ∧
    Forall2 (fun row view =>
               VsaController._vsa_view context row details = Ok view)
            rows views.
Proof.
  intros Hall Hlimited Hrows.
  rewrite (vsa_items_run vsas rows Hall Hlimited).
  destruct (mapM_all_ok
              (fun vsa => VsaController._vsa_view context vsa details) rows)
    as [views Hviews].
  { eapply Forall_impl; [exact Hrows|]. intros row Hwf.
    destruct (vsa_view_well_formed context row details Hwf)
      as (i & n & dn & dd & ct & st & t & vc & vol & ty & _ & _ & Hview).
    eexists. exact Hview. }
  exists views. rewrite Hviews. split; [reflexivity|].
  apply mapM_ok. exact Hviews.
Qed.

(** X5. One row that cannot be projected makes the whole aggregate
    listing fail: the listing raises the error of the first such row
    and returns no partial list. *)
Theorem vsa_listing_fails_as_a_whole
    (vsas good rest : list record) (bad : record) (e : exn) :
  perform (vsa_api_get_all context) s = (Ok vsas, s1) ->
  perform (common_limited vsas req) s1 = (Ok (good ++ bad :: rest)%list, s2) ->
  Forall (fun row => well_formed_vsa row = true) good ->
  VsaController._vsa_view context bad details = Raise e ->
  VsaController._items req details s
  = Outcome (Raise e) s2 [vsa_api_get_all context; common_limited vsas req].
Proof.
  intros Hall Hlimited Hgood Hbad.
  rewrite (vsa_items_run vsas _ Hall Hlimited).
  rewrite (mapM_first_raise _ good rest bad e); [reflexivity| |exact Hbad].
  eapply Forall_impl; [exact Hgood|]. intros row Hwf.
  destruct (vsa_view_well_formed context row details Hwf)
    as (i & n & dn & dd & ct & st & t & vc & vol & ty & _ & _ & Hview).
  eexists. exact Hview.
Qed.
End Listing.

Section ChildListing.
Context {B : Backend} {V : Volumes}.
Variables (req : request) (details : bool) (s s1 s2 : store).
Let context := nova_context req.

(** X6. The child listing asks the volume service for the rows linked
    to the parent in the controller's direction ([from] for volumes,
    [to] for drives), limits them, and answers under the plural name
    with one view per row in order; each view carries the row's own
    link as [vsaId]. The rows are not looked up one by one. *)
Theorem child_listing_has_a_view_per_row :
  split_head "_" (direction VsaVolumeController.__init__) = "from" ∧
  split_head "_" (direction VsaDriveController.__init__) = "to" ∧
  ∀ (this : self) (vsa_id : pyval) (vols rows : list record),
    let fetch :=
      volume_api_get_all_by_vsa context vsa_id
        (split_head "_" (direction this)) in
    let translation :=
      if details then translate_volume_detail_view
      else translate_volume_summary_view in
    perform fetch s = (Ok vols, s1) ->
    perform (common_limited vols req) s1 = (Ok rows, s2) ->
    Forall (fun row => (∃ d, translation context row = Ok d) ∧
                       is_Some (row !! direction this)) rows ->
    ∃ views,
      _items this req vsa_id details s
      = Outcome (Ok (Body {[ objects this := PList (PDict <$> views) ]})) s2
                [fetch; common_limited vols req] ∧
      Forall2 (fun row view => view !! "vsaId" = row !! direction this)
              rows views.
Proof.
  split; [reflexivity|]. split; [reflexivity|].
  intros this vsa_id vols rows fetch translation Hfetch Hlimited Hrows.
  unfold _items. fold context. fold fetch.
  rewrite (bind_invoke fetch), Hfetch. cbv beta iota zeta delta [fst snd].
  rewrite (bind_invoke (common_limited vols req)), Hlimited.
  cbv beta iota zeta delta [fst snd].
  rewrite (project_rows _ (fun views =>
             {[ objects this := PList (PDict <$> views) ]})).
  destruct (mapM_all_ok
              (fun vol => _translation this context vol vsa_id details) rows)
    as [views Hviews].
  { eapply Forall_impl; [exact Hrows|]. intros row [[d Hd] [owner Hown]].
    exists (<["vsaId" := owner]> d). unfold _translation, getitem.
    fold translation. rewrite Hd, Hown. reflexivity. }
  exists views. rewrite Hviews. split; [reflexivity|].
  apply mapM_ok in Hviews. clear Hfetch Hlimited.
  induction Hviews as [|row view rows views Hview _ IH];
    constructor.
  - unfold _translation, getitem in Hview.
    destruct ((if details then translate_volume_detail_view
               else translate_volume_summary_view) context row);
      [|discriminate].
    destruct (row !! direction this) as [owner|]; [|discriminate].
    injection Hview as <-. apply lookup_insert_eq.
  - apply IH. inversion Hrows; assumption.
Qed.
End ChildListing.

(** ** Creating a volume *)

Lemma truthy_dict_with (d : record) (key : string) (v : pyval) :
  d !! key = Some v -> truthy (PDict d) = true.
Proof.
  intros Hkey. destruct (truthy (PDict d)) eqn:Htruthy; [reflexivity|].
  rewrite (falsy_dict d Htruthy), lookup_empty in Hkey. discriminate.
Qed.

Section ChildCreate.
Context {B : Backend} {V : Volumes}.
Variables (req : request) (vsa_id : pyval) (d vol : record) (size : pyval)
          (s : store).
Let context := nova_context req.
Let creation : call :=
  volume_api_create context size PNone (default PNone (vol !! "displayName"))
    (default PNone (vol !! "displayDescription")) vsa_id.

(** The volume [create] up to its call. *)
Lemma volume_create_run :
  d !! "volume" = Some (PDict vol) ->
  vol !! "size" = Some size ->
  VsaVolumeController.create req vsa_id (PDict d) s
  = (new_volume ← invoke creation;
     view ← lift (_translation VsaVolumeController.__init__ context new_volume
                    vsa_id true);
     mret (Body {[ "volume" := PDict view ]})) s.
Proof.
  intros Hvol Hsize.
  unfold VsaVolumeController.create, create.
  rewrite (truthy_dict_with d _ _ Hvol).
  change (object VsaVolumeController.__init__) with "volume".
  assert (py_getitem (PDict d) "volume" = Ok (PDict vol)) as ->
    by (unfold py_getitem, getitem; rewrite Hvol; reflexivity).
  assert (py_getitem (PDict vol) "size" = Ok size) as Hget
    by (unfold py_getitem, getitem; rewrite Hsize; reflexivity).
  cbv beta iota delta [negb]. rewrite bind_lift_ok, Hget, bind_lift_ok.
  cbv beta iota delta [py_get]. rewrite !bind_lift_ok. reflexivity.
Qed.

(** X7. A volume [create] whose body holds a size makes one call:
    the creation, with the size, no snapshot, the display name and
    description of the body ([None] when absent) and the parent id as
    given. It looks up neither the parent nor any volume. Whatever the
    service raises, [NotFound] included, leaves the method; a returned
    row is answered in its detailed view, with the row's from-link as
    [vsaId]. *)
Theorem volume_create_calls_the_service_once :
  d !! "volume" = Some (PDict vol) ->
  vol !! "size" = Some size ->
  (∀ e s1,
      perform creation s = (Raise e, s1) ->
      VsaVolumeController.create req vsa_id (PDict d) s
      = Outcome (Raise e) s1 [creation]) ∧
  (∀ (row : record) s1 (view : record) (owner : pyval),
      perform creation s = (Ok row, s1) ->
      translate_volume_detail_view context row = Ok view ->
      row !! "from_vsa_id" = Some owner ->
      VsaVolumeController.create req vsa_id (PDict d) s
      = Outcome (Ok (Body {[ "volume" := PDict (<["vsaId" := owner]> view) ]}))
                s1 [creation]).
Proof.
  intros Hvol Hsize. rewrite (volume_create_run Hvol Hsize).
  rewrite (bind_invoke creation). split.
  - intros e s1 ->. reflexivity.
  - intros row s1 view owner -> Hview Hown.
    cbv beta iota zeta delta [fst snd].
    assert (_translation VsaVolumeController.__init__ context row vsa_id true
            = Ok (<["vsaId" := owner]> view)) as ->.
    { unfold _translation, getitem.
      change (direction VsaVolumeController.__init__) with "from_vsa_id".
      rewrite Hview, Hown. reflexivity. }
    rewrite bind_lift_ok. reflexivity.
Qed.
End ChildCreate.

(** ** More on the ownership check *)

Section OwnershipCheck.
Context {B : Backend} {V : Volumes} {Py : Interpreter}.
Variables (this : self) (req : request) (vsa_id id body : pyval) (s : store).
#[local] Abbreviation context := (nova_context req).
#[local] Abbreviation lookup_child := (volume_api_get (nova_context req) id).

Lemma bind_attempt {A C} (m : Eff A) (k : result A -> Eff C) (s0 : store) :
  (attempt m ≫= k) s0
  = let o := k (res (m s0)) (final (m s0)) in
    Outcome (res o) (final o) (trace (m s0) ++ trace o).
Proof. reflexivity. Qed.

Lemma py_int_raises (v : pyval) (e : exn) :
  py_int v = Raise e -> e = ValueError ∨ e = TypeError.
Proof.
  destruct v as [| | |str| |]; simpl;
    try (intros Hint; discriminate Hint);
    try (intros [= <-]; auto; fail).
  destruct (parse_int str); [intros Hint; discriminate Hint|].
  destruct (int_of_text str); intros Hint;
    [discriminate Hint | injection Hint as <-; auto].
Qed.

(** A check that returns has found the child linked to the parent. *)
Lemma check_passed :
  res (_check_volume_ownership this context vsa_id id s) = Ok tt ->
  ownership_holds this context vsa_id id s.
Proof.
  unfold _check_volume_ownership, ownership_holds.
  rewrite (bind_invoke (volume_api_get context id)).
  destruct (perform (volume_api_get context id) s) as [[R|e] s1];
    cbv beta iota zeta delta [fst snd];
    [|simpl; intros Habs; discriminate Habs].
  change (reply (volume_api_get context id)) with record in R.
  unfold getitem.
  destruct (R !! direction this) as [owner|] eqn:Hown;
    [|simpl; intros Habs; discriminate Habs].
  rewrite bind_lift_ok.
  destruct (py_int vsa_id) as [b|e] eqn:Hint;
    [|simpl; intros Habs; discriminate Habs].
  rewrite bind_lift_ok.
  destruct (py_ne_int owner b) eqn:Hne;
    [simpl; intros Habs; discriminate Habs|].
  intros _. exists R, owner, b. auto.
Qed.

(** The three id-scoped methods start alike: the check, then the
    [except] clauses. *)
Lemma scoped_run (k : Eff response) :
  (r ← attempt (_check_volume_ownership this context vsa_id id);
   match r with
   | Raise NotFound => mret (Fault HTTPNotFound)
   | Raise Invalid => mret (Fault HTTPBadRequest)
   | Raise e => lift (Raise e)
   | Ok _ => k
   end) s
  = let checked := _check_volume_ownership this context vsa_id id s in
    match res checked with
    | Ok _ =>
        let o := k (final checked) in
        Outcome (res o) (final o) (lookup_child :: trace o)
    | Raise NotFound => Outcome (Ok (Fault HTTPNotFound)) (final checked) [lookup_child]
    | Raise Invalid => Outcome (Ok (Fault HTTPBadRequest)) (final checked) [lookup_child]
    | Raise e => Outcome (Raise e) (final checked) [lookup_child]
    end.
Proof.
  rewrite bind_attempt. cbv zeta.
  rewrite (check_trace req vsa_id id this s).
  destruct (res (_check_volume_ownership this context vsa_id id s)) as [[]|e];
    [reflexivity|].
  destruct e; reflexivity.
Qed.

Lemma check_bad_parent (s1 : store) (R : record) (owner : pyval) (e : exn) :
  perform lookup_child s = (Ok R, s1) ->
  R !! direction this = Some owner ->
  py_int vsa_id = Raise e ->
  _check_volume_ownership this context vsa_id id s
  = Outcome (Raise e) s1 [lookup_child].
Proof.
  intros Hget Hown Hint. unfold _check_volume_ownership.
  rewrite (bind_invoke lookup_child), Hget.
  cbv beta iota zeta delta [fst snd].
  unfold getitem. rewrite Hown, bind_lift_ok, Hint. reflexivity.
Qed.

(** X8. Once the check has passed, [show] and [delete] are the base
    class's [show] and [delete] of the child id, run in the state that
    the lookup left: their answer is the base method's answer, and the
    parent id plays no further part. *)
Theorem owned_show_and_delete_delegate
    (s1 : store) (R : record) (owner : pyval) (b : Z) :
  perform lookup_child s = (Ok R, s1) ->
  R !! direction this = Some owner ->
  py_int vsa_id = Ok b ->
  py_ne_int owner b = false ->
  show this req vsa_id id s
  = Outcome (res (VolumeController_show req id s1))
            (final (VolumeController_show req id s1))
            (lookup_child :: trace (VolumeController_show req id s1)) ∧
  delete this req vsa_id id s
  = Outcome (res (VolumeController_delete req id s1))
            (final (VolumeController_delete req id s1))
            (lookup_child :: trace (VolumeController_delete req id s1)).
Proof.
  intros Hget Hown Hint Heq.
  pose proof (check_decides this _ vsa_id _ _ _ R _ _ Hget Hown Hint) as Hchk.
  rewrite Heq in Hchk.
  unfold show, delete. rewrite !scoped_run, Hchk. split; reflexivity.
Qed.

(** X9. When the child exists but the conversion of the parent id to
    an integer raises, [show], [update] and [delete] end with that
    exception ([ValueError] for a text that the interpreter cannot
    read as an integer, such as [abc]; [TypeError] for a value that is
    neither text nor number); it is not turned into a fault. *)
Theorem bad_parent_id_raises
    (s1 : store) (R : record) (owner : pyval) (e : exn) :
  perform lookup_child s = (Ok R, s1) ->
  R !! direction this = Some owner ->
  py_int vsa_id = Raise e ->
  (e = ValueError ∨ e = TypeError) ∧
  show this req vsa_id id s = Outcome (Raise e) s1 [lookup_child] ∧
  update this req vsa_id id body s = Outcome (Raise e) s1 [lookup_child] ∧
  delete this req vsa_id id s = Outcome (Raise e) s1 [lookup_child].
Proof.
  intros Hget Hown Hint. pose proof (py_int_raises _ _ Hint) as He.
  split; [exact He|].
  unfold show, update, delete.
  rewrite !scoped_run, (check_bad_parent s1 R owner e Hget Hown Hint).
  destruct He as [-> | ->]; repeat split.
Qed.

(** X10. A child whose link in the controller's direction is not a
    number (unset, as the from-link of a drive is, or a string) is
    refused with the bad-request fault under every integer parent
    id. *)
Theorem child_without_numeric_link_is_rejected
    (s1 : store) (R : record) (owner : pyval) (b : Z) :
  perform lookup_child s = (Ok R, s1) ->
  R !! direction this = Some owner ->
  (∀ n, owner ≠ PInt n) ->
  (∀ flag, owner ≠ PBool flag) ->
  py_int vsa_id = Ok b ->
  show this req vsa_id id s
  = Outcome (Ok (Fault HTTPBadRequest)) s1 [lookup_child] ∧
  update this req vsa_id id body s
  = Outcome (Ok (Fault HTTPBadRequest)) s1 [lookup_child] ∧
  delete this req vsa_id id s
  = Outcome (Ok (Fault HTTPBadRequest)) s1 [lookup_child].
Proof.
  intros Hget Hown Hnot_int Hnot_bool Hint.
  pose proof (check_decides this _ vsa_id _ _ _ R _ _ Hget Hown Hint) as Hchk.
  assert (py_ne_int owner b = true) as Hne.
  { destruct owner as [|flag|n| | |]; try reflexivity.
    - destruct (Hnot_bool flag eq_refl).
    - destruct (Hnot_int n eq_refl). }
  rewrite Hne in Hchk.
  unfold show, update, delete. rewrite !scoped_run, Hchk. repeat split.
Qed.

(** X11. Unless the ownership check passes, [show], [update] and
    [delete] call nothing but the lookup of the child: no update, no
    deletion and no base method runs, and the answer is a fault or an
    exception. *)
Theorem nothing_happens_without_ownership :
  ¬ ownership_holds this context vsa_id id s ->
  (trace (show this req vsa_id id s) = [lookup_child] ∧
   refused (res (show this req vsa_id id s))) ∧
  (trace (update this req vsa_id id body s) = [lookup_child] ∧
   refused (res (update this req vsa_id id body s))) ∧
  (trace (delete this req vsa_id id s) = [lookup_child] ∧
   refused (res (delete this req vsa_id id s))).
Proof.
  intros Hnot. unfold show, update, delete. rewrite !scoped_run. cbv zeta.
  destruct (res (_check_volume_ownership this context vsa_id id s))
    as [[]|e] eqn:Hres.
  - destruct Hnot. apply check_passed. exact Hres.
  - unfold refused. destruct e; simpl; repeat split; eauto.
Qed.

(** X16. When the lookup of the child raises, the three id-scoped
    methods answer after that single call: [NotFound] with the
    not-found fault, [Invalid] with the bad-request fault (as for a
    child of another parent), and any other exception is passed on. *)
Theorem lookup_exception_in_scoped_methods (e : exn) (s1 : store) :
  perform lookup_child s = (Raise e, s1) ->
  let answer :=
    Outcome match e with
            | NotFound => Ok (Fault HTTPNotFound)
            | Invalid => Ok (Fault HTTPBadRequest)
            | _ => Raise e
            end s1 [lookup_child] in
  show this req vsa_id id s = answer ∧
  update this req vsa_id id body s = answer ∧
  delete this req vsa_id id s = answer.
Proof.
  intros Hget answer.
  assert (_check_volume_ownership this context vsa_id id s
          = Outcome (Raise e) s1 [lookup_child]) as Hchk.
  { unfold _check_volume_ownership.
    rewrite (bind_invoke lookup_child), Hget. reflexivity. }
  unfold show, update, delete. rewrite !scoped_run, Hchk.
  unfold answer. destruct e; repeat split.
Qed.
End OwnershipCheck.

(** ** Payloads that are no dictionary *)

(** X12. From an update payload that is not a dictionary nothing is
    ever copied: the loop over the updatable fields either leaves the
    changes as they were (a list or a string that mentions none of the
    names) or ends with [TypeError]. *)
Theorem payload_not_a_dictionary
    (payload : pyval) (fields : list string) (changes : record) :
  (∀ d, payload ≠ PDict d) ->
  collect_changes payload fields changes = Ok changes ∨
  collect_changes payload fields changes = Raise TypeError.
Proof.
  intros Hnot. induction fields as [|f fields IH]; simpl; [left; reflexivity|].
  destruct payload as [| | |str|l|d]; try (right; reflexivity).
  - simpl. destruct (contains_str f str); [right; reflexivity | exact IH].
  - simpl. destruct (existsb _ l); [right; reflexivity | exact IH].
  - destruct (Hnot d eq_refl).
Qed.

(** ** More on the aggregate controller *)

Section Aggregate.
Context {B : Backend} {F : Flags}.
Variables (req : request) (s : store).
#[local] Abbreviation context := (nova_context req).

(** X13. [show] of an aggregate makes one call, the lookup. A row that
    comes back is answered with the view that the listings give it; a
    row that cannot be projected makes [show] raise the projector's
    error. *)
Theorem vsa_show_projects_like_the_listing
    (id : pyval) (row : record) (s1 : store) :
  perform (vsa_api_get context id) s = (Ok row, s1) ->
  VsaController.show req id s
  = Outcome (view ← VsaController._vsa_view context row false;
             Ok (Body {[ "vsa" := PDict view ]}))
            s1 [vsa_api_get context id].
Proof.
  intros Hget. unfold VsaController.show.
  rewrite (bind_attempt_invoke (vsa_api_get context id)), Hget.
  cbv beta iota zeta delta [fst snd].
  change (VsaController._vsa_view context row true)
    with (VsaController._vsa_view context row false).
  destruct (VsaController._vsa_view context row false) as [view|e];
    [rewrite bind_lift_ok|]; reflexivity.
Qed.

(** X14. Of what the vsa service raises, [show] and [delete] turn
    [NotFound], and only it, into a fault, the not-found fault: any other
    exception of the lookup or of the deletion leaves the method. Either
    way that call is the only one. A deletion that returns is answered
    with the accepted response. *)
Theorem only_not_found_becomes_a_fault (id : pyval) (e : exn) (s1 : store) :
  let answer :=
    match e with
    | NotFound => Ok (Fault HTTPNotFound)
    | _ => Raise e
    end in
  (perform (vsa_api_get context id) s = (Raise e, s1) ->
   VsaController.show req id s
   = Outcome answer s1 [vsa_api_get context id]) ∧
  (perform (vsa_api_delete context id) s = (Raise e, s1) ->
   VsaController.delete req id s
   = Outcome answer s1 [vsa_api_delete context id]) ∧
  (perform (vsa_api_delete context id) s = (Ok tt, s1) ->
   VsaController.delete req id s
   = Outcome (Ok (Bare HTTPAccepted)) s1 [vsa_api_delete context id]).
Proof.
  intros answer. unfold VsaController.show, VsaController.delete.
  rewrite (bind_attempt_invoke (vsa_api_get context id)).
  rewrite (bind_attempt_invoke (vsa_api_delete context id)).
  unfold answer.
  repeat split; intros ->; cbv beta iota zeta delta [fst snd];
    try reflexivity; destruct e; reflexivity.
Qed.

Lemma bind_lift_raise {A C} (e : exn) (k : A -> Eff C) (s0 : store) :
  (lift (Raise e) ≫= k) s0 = Outcome (Raise e) s0 [].
Proof. reflexivity. Qed.

(** X15. [create] never asks the vsa service for an aggregate unless
    the catalogue has returned a type descriptor: a creation call in
    the trace is the second and last call, it follows the successful
    resolution of a type name and carries the descriptor that the
    resolution returned. Empty or malformed bodies and unknown type
    names create nothing. *)
Theorem vsa_create_only_after_resolution (body : pyval) (c : call) :
  c ∈ trace (VsaController.create req body s) ->
  is_vsa_create c = true ->
  ∃ (name display_name display_description storage shared zone : pyval)
    (instance_type : record) (s1 : store),
    perform (get_instance_type_by_name name) s = (Ok instance_type, s1) ∧
    c = vsa_api_create context display_name display_description storage
          shared instance_type zone ∧
    trace (VsaController.create req body s)
    = [get_instance_type_by_name name; c].
Proof.
  unfold VsaController.create.
  destruct (truthy body); cbv beta iota delta [negb];
    [|intros Hc; inversion Hc].
  destruct (py_getitem body "vsa") as [vsa|e];
    [rewrite bind_lift_ok
    |rewrite bind_lift_raise; intros Hc; inversion Hc].
  destruct vsa as [| | | | |d];
    try (cbv beta iota delta [py_get]; rewrite bind_lift_raise;
         intros Hc; inversion Hc; fail).
  cbv beta iota delta [py_get]. rewrite !bind_lift_ok.
  destruct (default (PDict ∅) (d !! "placement")) as [| | | | |zone];
    try (rewrite bind_lift_raise; intros Hc; inversion Hc; fail).
  rewrite bind_lift_ok.
  set (name := default (PStr default_vsa_instance_type) (d !! "vcType")).
  rewrite (bind_attempt_invoke (get_instance_type_by_name name)).
  destruct (perform (get_instance_type_by_name name) s) as [[it|e] s1] eqn:Hname;
    cbv beta iota zeta delta [fst snd].
  - change (reply (get_instance_type_by_name name)) with record in it.
    set (creation := vsa_api_create context _ _ _ _ it _).
    rewrite (bind_invoke creation).
    assert (∀ tr, tr = [creation] ->
              c ∈ get_instance_type_by_name name :: tr ->
              is_vsa_create c = true ->
              c = creation ∧
              get_instance_type_by_name name :: tr
              = [get_instance_type_by_name name; c]) as Hlast.
    { intros tr -> Hc Hcreate.
      apply elem_of_cons in Hc as [-> | Hc]; [discriminate Hcreate|].
      apply list_elem_of_singleton in Hc as ->. split; reflexivity. }
    destruct (perform creation s1) as [[row|e] s2];
      cbv beta iota zeta delta [fst snd].
    + destruct (VsaController._vsa_view context row true) as [view|e];
        [rewrite bind_lift_ok|rewrite bind_lift_raise];
        cbn [trace]; intros Hc Hcreate;
        destruct (Hlast _ eq_refl Hc Hcreate) as [-> Htrace];
        eexists _, _, _, _, _, _, it, s1;
        (split; [exact Hname|]); split; reflexivity.
    + cbn [trace]. intros Hc Hcreate.
      destruct (Hlast _ eq_refl Hc Hcreate) as [-> Htrace].
      eexists _, _, _, _, _, _, it, s1.
      split; [exact Hname|]. split; reflexivity.
  - cbn [trace]. intros Hc Hcreate. exfalso.
    assert (c = get_instance_type_by_name name) as ->;
      [|discriminate Hcreate].
    destruct e; apply elem_of_cons in Hc as [Hc|Hc];
      try exact Hc; inversion Hc.
Qed.

(** X17. A type name that the body gives is resolved as given, even
    when it is [None]: the configured default stands in only for a
    missing [vcType] key. *)
Theorem vsa_create_resolves_a_given_type
    (body requested : pyval) (vsa zone : record) :
  truthy body = true ->
  py_getitem body "vsa" = Ok (PDict vsa) ->
  default (PDict ∅) (vsa !! "placement") = PDict zone ->
  vsa !! "vcType" = Some requested ->
  head (trace (VsaController.create req body s))
  = Some (get_instance_type_by_name requested).
Proof.
  intros Hbody Hvsa Hzone Htype.
  unfold VsaController.create. rewrite Hbody, Hvsa.
  cbv beta iota delta [negb py_get]. rewrite !bind_lift_ok.
  rewrite Hzone, bind_lift_ok, Htype.
  rewrite (bind_attempt_invoke (get_instance_type_by_name _)).
  reflexivity.
Qed.
End Aggregate.

(** ** The further properties on the reference backend *)

Section MoreInstances.
Import InMemory.
#[local] Existing Instance backend.
#[local] Existing Instance volumes_module.
#[local] Existing Instance flags.
#[local] Existing Instance CPython.interpreter.
Let admin : pyval := PStr "admin".
Let vsa5 : record := new_vsa 5 (PStr "arr1") PNone m1_small.
Let vsa7 : record := new_vsa 7 (PStr "arr2") PNone m1_small.
Let volume9 : record := new_volume 9 (PInt 3) (PStr "vol") PNone (PStr "7").
Let lookup9 : call := volume_api_get admin (PStr "9").

Lemma summary_within_detail_witness :
  (∃ summary detailed,
      VsaController._vsa_view admin vsa5 false = Ok summary ∧
      VsaController._vsa_view admin vsa5 true = Ok detailed ∧
      (∀ k v, summary !! k = Some v -> detailed !! k = Some v) ∧
      (∀ k, is_Some (summary !! k) ↔ k ∈ vsa_view_keys) ∧
      (∀ k, is_Some (detailed !! k) ↔ k ∈ vsa_view_keys) ∧
      (∀ external column,
          (external, column) ∈ vsa_renaming ->
          summary !! external = vsa5 !! column ∧
          detailed !! external = vsa5 !! column) ∧
      summary !! "vcType" = Some (PStr "m1.small") ∧
      (∀ k, k ∈ internal_only -> summary !! k = None ∧ detailed !! k = None)) ∧
  (∃ translated,
      translate_view admin volume9 = Ok translated ∧
      _translation (B := backend) (V := volumes_module)
        VsaVolumeController.__init__ admin volume9 (PStr "7") false
      = Ok (<["vsaId" := PInt 7]> translated) ∧
      _translation (B := backend) (V := volumes_module)
        VsaVolumeController.__init__ admin volume9 (PStr "7") true
      = Ok (<["vsaId" := PInt 7]> translated)) ∧
  (∃ summary detailed,
      _translation (B := backend) (V := volumes_module)
        VsaVolumeController.__init__ admin volume9 (PStr "7") false
      = Ok summary ∧
      _translation (B := backend) (V := volumes_module)
        VsaVolumeController.__init__ admin volume9 (PStr "7") true
      = Ok detailed ∧
      (∀ k v, summary !! k = Some v -> detailed !! k = Some v) ∧
      (∀ k, is_Some (summary !! k) ↔ k ∈ volume_view_keys) ∧
      (∀ k, is_Some (detailed !! k) ↔ k ∈ volume_view_keys) ∧
      (∀ external column,
          (external, column) ∈ volume_renaming ->
          summary !! external = volume9 !! column ∧
          detailed !! external = volume9 !! column) ∧
      summary !! "vsaId" = Some (PInt 7) ∧
      detailed !! "vsaId" = Some (PInt 7) ∧
      (∀ k, k ∈ internal_only -> summary !! k = None ∧ detailed !! k = None)).
Proof.
  destruct summary_within_detail_no_internal_fields
    as (Haggregate & Hextended & Hchild).
  split; [|split].
  - apply (Haggregate admin vsa5). reflexivity.
  - destruct (translate_view admin volume9) as [translated|] eqn:Hview;
      [|discriminate Hview].
    exists translated. split; [reflexivity|].
    apply (Hextended backend volumes_module VsaVolumeController.__init__ admin
             (PStr "7") (PInt 7) volume9 translated translated);
      [reflexivity | exact Hview | exact Hview].
  - apply (Hchild VsaVolumeController.__init__ admin (PStr "7") volume9).
    reflexivity.
Defined.
Lemma vsa_view_failure_witness :
  (∃ c, c ∈ vsa_columns ∧ base.delete "name" vsa5 !! c = None ∧
        KeyError "name" = KeyError c) ∨
  (∃ t, base.delete "name" vsa5 !! "vsa_instance_type" = Some t ∧
        truthy t = true ∧ (∀ d, t ≠ PDict d) ∧
        KeyError "name" = AttributeError).
Proof.
  apply (vsa_view_failure admin (base.delete "name" vsa5) false (KeyError "name")).
  reflexivity.
Defined.

Lemma vsa_view_renames_witness :
  ∃ view,
    VsaController._vsa_view admin vsa5 true = Ok view ∧
    view !! "displayName" = Some (PStr "arr1") ∧
    view !! "vcType" = Some (PStr "m1.small") ∧
    view !! "display_name" = None.
Proof.
  assert (∃ view, VsaController._vsa_view admin vsa5 true = Ok view)
    as [view Hview] by (eexists; reflexivity).
  destruct (vsa_view_renames_columns admin vsa5 true view Hview)
    as (_ & _ & Hname & _ & _ & _ & _ & _ & Htype & Hother).
  exists view. split; [exact Hview|].
  split; [rewrite Hname; reflexivity|].
  split; [rewrite Htype; reflexivity|].
  apply Hother. apply (bool_decide_unpack _). reflexivity.
Defined.

Lemma vsa_listing_witness :
  ∃ views,
    VsaController._items request0 false sample
    = Outcome (Ok (Body {[ "vsaSet" := PList (PDict <$> views) ]})) sample
        [vsa_api_get_all admin; common_limited [vsa7; vsa5] request0] ∧
    Forall2 (fun row view => VsaController._vsa_view admin row false = Ok view)
            [vsa7; vsa5] views.
Proof.
  apply (vsa_listing_has_a_view_per_row (B := backend) request0 false sample sample sample
           [vsa7; vsa5] [vsa7; vsa5]).
  - reflexivity.
  - reflexivity.
  - repeat constructor.
Defined.

Let broken : db :=
  Db (<[5 := vsa5]> (<[7 := base.delete "name" vsa7]> ∅)) ∅ ∅ 10.

Lemma vsa_listing_failure_witness :
  VsaController._items request0 true broken
  = Outcome (Raise (KeyError "name")) broken
      [vsa_api_get_all admin;
       common_limited [base.delete "name" vsa7; vsa5] request0].
Proof.
  apply (vsa_listing_fails_as_a_whole (B := backend) request0 true broken broken broken
           [base.delete "name" vsa7; vsa5] [] [vsa5]
           (base.delete "name" vsa7) (KeyError "name")).
  - reflexivity.
  - reflexivity.
  - constructor.
  - reflexivity.
Defined.

Lemma child_listing_witness :
  ∃ views,
    VsaVolumeController.index request0 (PStr "7") sample
    = Outcome (Ok (Body {[ "volumes" := PList (PDict <$> views) ]})) sample
        [volume_api_get_all_by_vsa admin (PStr "7") "from";
         common_limited [volume9] request0] ∧
    Forall2 (fun row view => view !! "vsaId" = row !! "from_vsa_id")
            [volume9] views.
Proof.
  apply (proj2 (proj2 (child_listing_has_a_view_per_row (B := backend) (V := volumes_module) request0 false
                         sample sample sample))
           VsaVolumeController.__init__ (PStr "7") [volume9] [volume9]).
  - reflexivity.
  - reflexivity.
  - repeat constructor; eexists; reflexivity.
Defined.

Let sized : record :=
  {[ "volume" := PDict {[ "size" := PInt 3 ]} ]}.
Let creation : call :=
  volume_api_create admin (PInt 3) PNone PNone PNone (PStr "5").

Lemma volume_create_witness :
  (∃ view,
      view !! "vsaId" = Some (PInt 5) ∧
      res (VsaVolumeController.create request0 (PStr "5") (PDict sized) sample)
      = Ok (Body {[ "volume" := PDict view ]}) ∧
      trace (VsaVolumeController.create request0 (PStr "5") (PDict sized) sample)
      = [creation]) ∧
  VsaVolumeController.create (B := Unavailable.backend NotFound)
    (V := Unavailable.volumes_module NotFound) request0 (PStr "5")
    (PDict sized) tt
  = Outcome (B := Unavailable.backend NotFound) (Raise NotFound) tt [creation].
Proof.
  split.
  - edestruct (volume_create_calls_the_service_once (B := backend)
                 (V := volumes_module) request0 (PStr "5") sized
                 {[ "size" := PInt 3 ]} (PInt 3) sample)
      as [_ Hcreated]; [reflexivity | reflexivity |].
    edestruct (translate_view admin
                 (new_volume 10 (PInt 3) PNone PNone (PStr "5")))
      as [view|] eqn:Hview; [|discriminate Hview].
    exists (<["vsaId" := PInt 5]> view).
    split; [apply lookup_insert_eq|].
    rewrite (Hcreated (new_volume 10 (PInt 3) PNone PNone (PStr "5"))
               (Db (vsas sample)
                   (<[10 := new_volume 10 (PInt 3) PNone PNone (PStr "5")]>
                      (volumes sample))
                   (instance_types sample) 11)
               view (PInt 5));
      [split; reflexivity | reflexivity | exact Hview | reflexivity].
  - edestruct (volume_create_calls_the_service_once
                 (B := Unavailable.backend NotFound)
                 (V := Unavailable.volumes_module NotFound) request0 (PStr "5")
                 sized {[ "size" := PInt 3 ]} (PInt 3) tt)
      as [Hraised _]; [reflexivity | reflexivity |].
    apply Hraised. reflexivity.
Defined.

Lemma owned_show_witness :
  VsaVolumeController.show request0 (PStr "7") (PStr "9") sample
  = Outcome (res (base_show request0 (PStr "9") sample)) sample
      [lookup9; lookup9] ∧
  VsaVolumeController.delete request0 (PStr "7") (PStr "9") sample
  = Outcome (Ok (Bare HTTPAccepted))
      (final (base_delete request0 (PStr "9") sample))
      [lookup9; volume_api_delete admin (PStr "9")].
Proof.
  apply (owned_show_and_delete_delegate (B := backend) (V := volumes_module)
           VsaVolumeController.__init__ request0 (PStr "7") (PStr "9") sample
           sample volume9 (PInt 7) 7); reflexivity.
Defined.

Example parent_id_in_arabic_indic_digits :
  VsaVolumeController.show request0 (PStr "٧") (PStr "9") sample
  = VsaVolumeController.show request0 (PStr "7") (PStr "9") sample ∧
  res (VsaVolumeController.show request0 (PStr "٥") (PStr "9") sample)
  = Ok (Fault HTTPBadRequest).
Proof. split; reflexivity. Qed.

Lemma bad_parent_id_witness :
  (ValueError = ValueError ∨ ValueError = TypeError) ∧
  VsaVolumeController.show request0 (PStr "abc") (PStr "9") sample
  = Outcome (Raise ValueError) sample [lookup9] ∧
  VsaVolumeController.update (B := backend) request0 (PStr "abc") (PStr "9")
    PNone sample
  = Outcome (Raise ValueError) sample [lookup9] ∧
  VsaVolumeController.delete request0 (PStr "abc") (PStr "9") sample
  = Outcome (Raise ValueError) sample [lookup9].
Proof.
  apply (bad_parent_id_raises (B := backend) (V := volumes_module)
           VsaVolumeController.__init__ request0 (PStr "abc") (PStr "9") PNone
           sample sample volume9 (PInt 7) ValueError); reflexivity.
Defined.

Lemma unlinked_child_witness :
  VsaDriveController.show request0 (PStr "7") (PStr "9") sample
  = Outcome (Ok (Fault HTTPBadRequest)) sample [lookup9] ∧
  update (B := backend) VsaDriveController.__init__ request0 (PStr "7")
    (PStr "9") PNone sample
  = Outcome (Ok (Fault HTTPBadRequest)) sample [lookup9] ∧
  VsaDriveController.delete request0 (PStr "7") (PStr "9") sample
  = Outcome (Ok (Fault HTTPBadRequest)) sample [lookup9].
Proof.
  apply (child_without_numeric_link_is_rejected (B := backend)
           (V := volumes_module) VsaDriveController.__init__ request0
           (PStr "7") (PStr "9") PNone sample sample volume9 PNone 7);
    try reflexivity; intros; discriminate.
Defined.

Lemma without_ownership_witness :
  (trace (VsaVolumeController.show request0 (PStr "5") (PStr "42") sample)
   = [volume_api_get admin (PStr "42")] ∧
   refused (res (VsaVolumeController.show request0 (PStr "5") (PStr "42")
                   sample))) ∧
  (trace (VsaVolumeController.update (B := backend) request0 (PStr "5")
            (PStr "42") PNone sample)
   = [volume_api_get admin (PStr "42")] ∧
   refused (res (VsaVolumeController.update (B := backend) request0 (PStr "5")
                   (PStr "42") PNone sample))) ∧
  (trace (VsaVolumeController.delete request0 (PStr "5") (PStr "42") sample)
   = [volume_api_get admin (PStr "42")] ∧
   refused (res (VsaVolumeController.delete request0 (PStr "5") (PStr "42")
                   sample))).
Proof.
  apply (nothing_happens_without_ownership (B := backend) (V := volumes_module)
           VsaVolumeController.__init__ request0 (PStr "5") (PStr "42") PNone
           sample).
  intros (R & owner & b & Hfound & _). discriminate Hfound.
Defined.

Lemma payload_not_a_dictionary_witness :
  collect_changes (PStr "status: ok") updatable_fields ∅ = Ok ∅ ∨
  collect_changes (PStr "status: ok") updatable_fields ∅ = Raise TypeError.
Proof.
  apply (payload_not_a_dictionary (PStr "status: ok") updatable_fields ∅).
  intros d. discriminate.
Defined.

Lemma vsa_show_witness :
  VsaController.show request0 (PStr "5") sample
  = Outcome (view ← VsaController._vsa_view admin vsa5 false;
             Ok (Body {[ "vsa" := PDict view ]}))
      sample [vsa_api_get admin (PStr "5")].
Proof.
  apply (vsa_show_projects_like_the_listing (B := backend) request0 sample
           (PStr "5") vsa5 sample).
  reflexivity.
Defined.

Let db_error : exn := OtherError "DBError".

Lemma only_not_found_witness :
  (VsaController.show (B := backend) request0 (PStr "42") sample
   = Outcome (Ok (Fault HTTPNotFound)) sample [vsa_api_get admin (PStr "42")] ∧
   VsaController.delete (B := backend) request0 (PStr "42") sample
   = Outcome (Ok (Fault HTTPNotFound)) sample
       [vsa_api_delete admin (PStr "42")]) ∧
  (VsaController.show (B := Unavailable.backend db_error) request0 (PStr "5") tt
   = Outcome (B := Unavailable.backend db_error) (Raise db_error) tt
       [vsa_api_get admin (PStr "5")] ∧
   VsaController.delete (B := Unavailable.backend db_error) request0 (PStr "5")
     tt
   = Outcome (B := Unavailable.backend db_error) (Raise db_error) tt
       [vsa_api_delete admin (PStr "5")]) ∧
  res (VsaController.delete (B := backend) request0 (PStr "5") sample)
  = Ok (Bare HTTPAccepted).
Proof.
  destruct (only_not_found_becomes_a_fault (B := backend) request0 sample
              (PStr "42") NotFound sample) as (Hshow & Hdelete & _).
  destruct (only_not_found_becomes_a_fault
              (B := Unavailable.backend db_error) request0 tt (PStr "5")
              db_error tt) as (Hshow' & Hdelete' & _).
  destruct (only_not_found_becomes_a_fault (B := backend) request0 sample
              (PStr "5") NotFound
              (Db (base.delete 5 (vsas sample)) (volumes sample)
                  (instance_types sample) 10)) as (_ & _ & Haccepted).
  split; [split; [apply Hshow | apply Hdelete]; reflexivity|].
  split; [split; [apply Hshow' | apply Hdelete']; reflexivity|].
  rewrite Haccepted; reflexivity.
Defined.

Let naming : record :=
  <["displayName" := PStr "arr1"]> (<["storage" := PStr "10GB"]> ∅).
Let created : call :=
  vsa_api_create admin (PStr "arr1") PNone (PStr "10GB") PNone m1_small PNone.

Lemma vsa_create_order_witness :
  ∃ (name display_name display_description storage shared zone : pyval)
    (instance_type : record) (s1 : db),
    perform (Backend := backend) (get_instance_type_by_name name) sample
    = (Ok instance_type, s1) ∧
    created = vsa_api_create admin display_name display_description storage
                shared instance_type zone ∧
    trace (VsaController.create (B := backend) request0
             (PDict {[ "vsa" := PDict naming ]}) sample)
    = [get_instance_type_by_name name; created].
Proof.
  apply (vsa_create_only_after_resolution (B := backend) (F := flags) request0
           sample (PDict {[ "vsa" := PDict naming ]}) created).
  - assert (trace (VsaController.create (B := backend) request0
                     (PDict {[ "vsa" := PDict naming ]}) sample)
            = [get_instance_type_by_name (PStr "m1.small"); created]) as ->
      by reflexivity.
    apply elem_of_cons. right. apply elem_of_cons. left. reflexivity.
  - reflexivity.
Defined.

Lemma lookup_exception_witness :
  let answer :=
    Outcome (B := backend) (Ok (Fault HTTPNotFound)) sample
      [volume_api_get admin (PStr "42")] in
  VsaVolumeController.show request0 (PStr "7") (PStr "42") sample = answer ∧
  VsaVolumeController.update (B := backend) request0 (PStr "7") (PStr "42")
    PNone sample = answer ∧
  VsaVolumeController.delete request0 (PStr "7") (PStr "42") sample = answer.
Proof.
  apply (lookup_exception_in_scoped_methods (B := backend)
           (V := volumes_module) VsaVolumeController.__init__ request0
           (PStr "7") (PStr "42") PNone sample NotFound sample).
  reflexivity.
Defined.

Lemma vsa_create_given_type_witness :
  head (trace (VsaController.create (B := backend) (F := flags) request0
                 (PDict {[ "vsa" := PDict (<["vcType" := PNone]> naming) ]})
                 sample))
  = Some (get_instance_type_by_name PNone).
Proof.
  apply (vsa_create_resolves_a_given_type (B := backend) (F := flags) request0
           sample (PDict {[ "vsa" := PDict (<["vcType" := PNone]> naming) ]})
           PNone (<["vcType" := PNone]> naming) ∅); reflexivity.
Defined.
End MoreInstances.
